(** * A polyclinic as a queueing network: objects.py

    Shallow embedding of [src/objects.py] (classes [StatisticValue],
    [Patient] and [Polyclinic]) together with the two libraries it is
    written against: the discrete-event kernel [simpy] (environment,
    events, [Resource]) and Python's [random.Random].

    Python objects are records, methods are functions that take the
    object and return the updated one, exceptions are an explicit
    outcome.  Each generator ([visit_registry], [visit_therapist],
    [visit_doctor]) is cut at its [yield]s into the pieces the scheduler
    runs one after the other; what the rest of the simulation does to
    the shared polyclinic in between is a parameter of a visit, and the
    clock a piece resumes with is the time of the event it waited for,
    as [env.step()] sets it. *)

From Stdlib Require Import ZArith QArith List String Bool Lia Lra Sorted.
From Stdlib Require Import Reals.
Import ListNotations.

Set Implicit Arguments.

(** ** Python numbers

    [env.now], delays and durations are Python numbers: [int]s as long as
    every delay is one, [float]s otherwise.  The program only adds,
    subtracts and compares them, so the model is written once over a class
    of numbers; it is run on the rationals [Q] (every [int] and every
    finite [float] is one, and the arithmetic is exact) and, where the
    normal sampler is analysed, on the reals [R]. *)

Class PyNumber (T : Type) : Type := {
  of_Z : Z -> T;
  nadd : T -> T -> T;
  nsub : T -> T -> T;
  nlt : T -> T -> bool;
  neq : T -> T -> bool;
  neq_refl : forall x, neq x x = true;
  neq_sym : forall x y, neq x y = neq y x;
  neq_trans : forall x y z, neq x y = true -> neq y z = true -> neq x z = true;
  nlt_trans : forall x y z, nlt x y = true -> nlt y z = true -> nlt x z = true;
  nlt_neq : forall x y, nlt x y = true -> neq x y = false;
  nlt_total : forall x y, nlt x y = false -> nlt y x = false -> neq x y = true;
  nlt_compat_l : forall x y z, neq x y = true -> nlt x z = nlt y z;
  nlt_compat_r : forall x y z, neq x y = true -> nlt z x = nlt z y;
  nadd_0_r : forall x, neq (nadd x (of_Z 0)) x = true;
  nsub_compat_l : forall x y z, neq x y = true -> neq (nsub x z) (nsub y z) = true;
  nsub_diag : forall x, nlt (nsub x x) (of_Z 1) = true
}.

Declare Scope py_scope.
Delimit Scope py_scope with py.
Notation "x + y" := (nadd x y) : py_scope.
Notation "x - y" := (nsub x y) : py_scope.
Notation "x <? y" := (nlt x y) : py_scope.
Notation "x =? y" := (neq x y) : py_scope.

(** The rationals: [<] and [==] are decided on cross products. *)

Definition Qltb (x y : Q) : bool := negb (Qle_bool y x).

#[export, refine] Instance Q_PyNumber : PyNumber Q := {
  of_Z := inject_Z;
  nadd := Qplus;
  nsub := Qminus;
  nlt := Qltb;
  neq := Qeq_bool
}.
Proof.
  all: assert (Hlt : forall x y, Qltb x y = true <-> (x < y)%Q)
    by (intros x y; unfold Qltb; rewrite negb_true_iff; split; intros Hxy;
        [ apply Qnot_le_lt; intros Hle; apply Qle_bool_iff in Hle; congruence
        | destruct (Qle_bool y x) eqn:E; [|reflexivity];
          apply Qle_bool_iff in E; exfalso; exact (Qlt_not_le _ _ Hxy E) ]).
  all: assert (Hge : forall x y, Qltb x y = false <-> (y <= x)%Q)
    by (intros x y; unfold Qltb; rewrite negb_false_iff; apply Qle_bool_iff).
  all: assert (Hne : forall x y, Qeq_bool x y = false <-> ~ (x == y)%Q)
    by (intros x y; split; intros Hxy;
        [ intros E; apply Qeq_bool_iff in E; congruence
        | destruct (Qeq_bool x y) eqn:E; [|reflexivity];
          apply Qeq_bool_iff in E; contradiction ]).
  - intros x. apply Qeq_bool_iff. reflexivity.
  - intros x y. destruct (Qeq_bool x y) eqn:E; symmetry.
    + apply Qeq_bool_iff. apply Qeq_bool_iff in E. symmetry. exact E.
    + apply Hne. apply Hne in E. intros E'. apply E. symmetry. exact E'.
  - intros x y z H1 H2. apply Qeq_bool_iff.
    apply Qeq_bool_iff in H1. apply Qeq_bool_iff in H2.
    transitivity y; assumption.
  - intros x y z H1 H2. apply Hlt. apply Hlt in H1. apply Hlt in H2.
    eapply Qlt_trans; eassumption.
  - intros x y H1. apply Hlt in H1. apply Hne.
    intros E. rewrite E in H1. exact (Qlt_irrefl _ H1).
  - intros x y H1 H2. apply Hge in H1. apply Hge in H2.
    apply Qeq_bool_iff. apply Qle_antisym; assumption.
  - intros x y z E. apply Qeq_bool_iff in E. unfold Qltb.
    rewrite E. reflexivity.
  - intros x y z E. apply Qeq_bool_iff in E. unfold Qltb.
    rewrite E. reflexivity.
  - intros x. apply Qeq_bool_iff. simpl. ring.
  - intros x y z E. apply Qeq_bool_iff. apply Qeq_bool_iff in E.
    rewrite E. reflexivity.
  - intros x. apply Hlt. setoid_replace (x - x)%Q with 0%Q by ring.
    reflexivity.
Defined.

(** The reals: the comparisons are the decision procedures of the
    library. *)

Definition Rltb (x y : R) : bool := if Rlt_dec x y then true else false.
Definition Reqb (x y : R) : bool := if Req_dec_T x y then true else false.

#[export, refine] Instance R_PyNumber : PyNumber R := {
  of_Z := IZR;
  nadd := Rplus;
  nsub := Rminus;
  nlt := Rltb;
  neq := Reqb
}.
Proof.
  all: unfold Rltb, Reqb; intros;
    repeat match goal with
           | E : context [Rlt_dec ?a ?b] |- _ => destruct (Rlt_dec a b)
           | E : context [Req_dec_T ?a ?b] |- _ => destruct (Req_dec_T a b)
           | |- context [Rlt_dec ?a ?b] => destruct (Rlt_dec a b)
           | |- context [Req_dec_T ?a ?b] => destruct (Req_dec_T a b)
           end;
    try reflexivity; try discriminate; exfalso; lra.
Defined.

(** ** Exceptions and outcomes

    A piece of Python code run on a state either returns a value and the
    new state, or raises: the exception leaves the generator with the
    state as it was when it was raised.  [Hang] is a library loop that
    never returns (the rejection loop of [random.normalvariate]). *)

Inductive Exception (T : Type) : Type :=
| ValueError (arg : string)      (* raise ValueError(type_) *)
| NegativeDelay (delay : T)      (* simpy: ValueError(f'Negative delay {delay}') *)
| CapacityError                  (* simpy: ValueError('"capacity" must be > 0.') *)
| IndexError.                    (* list index out of range *)

Arguments ValueError {T} arg.
Arguments NegativeDelay {T} delay.
Arguments CapacityError {T}.
Arguments IndexError {T}.

Inductive Outcome (T S A : Type) : Type :=
| Ok (a : A) (s : S)
| Raise (e : Exception T) (s : S)
| Hang.

Arguments Ok {T S A} a s.
Arguments Raise {T S A} e s.
Arguments Hang {T S A}.

Definition M (T S A : Type) : Type := S -> Outcome T S A.

Definition ret {T S A} (a : A) : M T S A := fun s => Ok a s.

Definition bind {T S A B} (c : M T S A) (k : A -> M T S B) : M T S B :=
  fun s => match c s with
           | Ok a s' => k a s'
           | Raise e s' => Raise e s'
           | Hang => Hang
           end.

Definition raise {T S A} (e : Exception T) : M T S A := fun s => Raise e s.
Definition get {T S} : M T S S := fun s => Ok s s.
Definition modify {T S} (f : S -> S) : M T S unit := fun s => Ok tt (f s).

Notation "x <- c ;; k" := (bind c (fun x => k))
  (at level 61, c at next level, right associativity).
Notation "c ;;; k" := (bind c (fun _ => k))
  (at level 61, right associativity).

(** [finally c h]: run [c], then [h], whether [c] returned or raised (the
    [__exit__] of a [with] block that does not swallow the exception). *)

Definition finally {T S A} (c : M T S A) (h : S -> S) : M T S A :=
  fun s => match c s with
           | Ok a s' => Ok a (h s')
           | Raise e s' => Raise e (h s')
           | Hang => Hang
           end.

(** The truth value of an [int] in [if n:]. *)

Definition truthy (n : nat) : bool := negb (Nat.eqb n 0).

(** Python's [l[i]]: a negative index counts from the end; out of range
    raises [IndexError]. *)

Definition py_norm_index {A} (l : list A) (i : Z) : option nat :=
  let n := Z.of_nat (List.length l) in
  if (0 <=? i)%Z then (if (i <? n)%Z then Some (Z.to_nat i) else None)
  else if (- n <=? i)%Z then Some (Z.to_nat (n + i)) else None.

Definition py_getitem {A} (l : list A) (i : Z) : option A :=
  match py_norm_index l i with
  | Some k => nth_error l k
  | None => None
  end.

Fixpoint list_set {A} (l : list A) (k : nat) (x : A) : list A :=
  match l, k with
  | [], _ => []
  | _ :: l', O => x :: l'
  | y :: l', S k' => y :: list_set l' k' x
  end.

Definition py_setitem {A} (l : list A) (i : Z) (x : A) : option (list A) :=
  match py_norm_index l i with
  | Some k => Some (list_set l k x)
  | None => None
  end.

(** ** class StatisticValue *)

Section StatisticValue.
Context {T : Type} `{PyNumber T}.
Local Open Scope py_scope.

(** [self._history] is a [dict] from time to value: an association list
    in insertion order; storing under a key that is already there (up to
    [==]) replaces the value in place. *)

Definition dict : Type := list (T * Z).

Fixpoint dict_setitem (k : T) (v : Z) (d : dict) : dict :=
  match d with
  | [] => [(k, v)]
  | (k', v') :: d' =>
      if k' =? k then (k', v) :: d' else (k', v') :: dict_setitem k v d'
  end.

Fixpoint dict_get (k : T) (d : list (T * Z)) : option Z :=
  match d with
  | [] => None
  | (k', v') :: d' => if k' =? k then Some v' else dict_get k d'
  end.

(** [sorted(items, key=lambda x: x[0])]: a stable sort that compares the
    keys with [<]. *)

Fixpoint insert_by_key (x : T * Z) (l : list (T * Z)) : list (T * Z) :=
  match l with
  | [] => [x]
  | y :: l' =>
      if fst y <? fst x then y :: insert_by_key x l' else x :: y :: l'
  end.

Definition sorted_by_key (l : list (T * Z)) : list (T * Z) :=
  fold_right insert_by_key [] l.

(** The object keeps a reference to the environment only to read
    [self.env.now]: the methods take that time as [now]. *)

Record StatisticValue : Type := {
  _value : Z;
  _max_value : Z;
  _history : dict
}.

Definition StatisticValue__init__ : StatisticValue :=
  {| _value := 0; _max_value := 0; _history := [] |}.

Definition value (self : StatisticValue) : Z := _value self.
Definition max_value (self : StatisticValue) : Z := _max_value self.
Definition history (self : StatisticValue) : list (T * Z) :=
  sorted_by_key (_history self).

Definition __iadd__ (now : T) (other : Z) (self : StatisticValue) : StatisticValue :=
  let self1 := {| _value := _value self + other;
                  _max_value := _max_value self;
                  _history := _history self |} in
  let self2 := {| _value := _value self1;
                  _max_value := _max_value self1;
                  _history := dict_setitem now (value self1) (_history self1) |} in
  {| _value := _value self2;
     _max_value := Z.max (value self2) (max_value self2);
     _history := _history self2 |}.

Definition __isub__ (now : T) (other : Z) (self : StatisticValue) : StatisticValue :=
  let self1 := {| _value := _value self - other;
                  _max_value := _max_value self;
                  _history := _history self |} in
  {| _value := _value self1;
     _max_value := _max_value self1;
     _history := dict_setitem now (value self1) (_history self1) |}.

(** A run of the object: the mutations in the order they are made, each
    with the time the clock shows when it is made. *)

Inductive Mutation : Type :=
| Iadd (now : T) (other : Z)
| Isub (now : T) (other : Z).

Definition mutate (self : StatisticValue) (m : Mutation) : StatisticValue :=
  match m with
  | Iadd now other => __iadd__ now other self
  | Isub now other => __isub__ now other self
  end.

Definition mutations (ms : list Mutation) (self : StatisticValue) : StatisticValue :=
  fold_left mutate ms self.

Definition mutation_time (m : Mutation) : T :=
  match m with Iadd now _ | Isub now _ => now end.

(** The value left in the object by the last of the mutations [ms] made
    at a time equal to [t], if there is one ([acc] otherwise). *)

Fixpoint last_write (t : T) (ms : list Mutation) (self : StatisticValue)
  (acc : option Z) : option Z :=
  match ms with
  | [] => acc
  | m :: ms' =>
      let self' := mutate self m in
      last_write t ms' self'
        (if mutation_time m =? t then Some (value self') else acc)
  end.

(** Every value that is in [_history] at some point of the run [ms]
    started on [self], and the greatest of a list of values and [0]. *)

Fixpoint ever_recorded (ms : list Mutation) (self : StatisticValue) : list Z :=
  map snd (_history self) ++
  match ms with
  | [] => []
  | m :: ms' => ever_recorded ms' (mutate self m)
  end.

Definition greatest (l : list Z) : Z := fold_right Z.max 0%Z l.

Definition decrement_nonnegative (m : Mutation) : bool :=
  match m with
  | Iadd _ _ => true
  | Isub _ other => (0 <=? other)%Z
  end.

(** A dict holds each key once. *)

Inductive dict_ok : list (T * Z) -> Prop :=
| dict_ok_nil : dict_ok []
| dict_ok_cons k v d : dict_get k d = None -> dict_ok d -> dict_ok ((k, v) :: d).

(** Entries in ascending order of time. *)

Definition key_lt (a b : T * Z) : Prop := (fst a <? fst b) = true.

End StatisticValue.

Arguments StatisticValue T : clear implicits.
Arguments Mutation T : clear implicits.
Arguments dict T : clear implicits.

(** ** class Patient *)

Section Patient.
Context {T : Type} `{PyNumber T}.
Local Open Scope py_scope.

(** An element of [self._visits]: the dict with the keys ['type'],
    ['waiting_time'] and ['service_time']. *)

Record VisitRecord : Type := {
  type : string;
  waiting_time : T;
  service_time : T
}.

Record Patient : Type := {
  index : Z;
  enter : T;
  exit : option T;
  _visits : list VisitRecord
}.

Definition visits (self : Patient) : list VisitRecord := _visits self.

(** Objects live in a store and are named by their address.  The class
    attribute [Patient.all_created] is one list of addresses per Python
    process; it belongs to no instance and to no [Polyclinic]. *)

Record Store : Type := {
  objects : list Patient;
  all_created : list nat
}.

Definition empty_store : Store := {| objects := []; all_created := [] |}.

(** [Patient(index, enter)]: the new object is appended to
    [all_created] first, then its fields are set. *)

Definition Patient__init__ (index : Z) (enter : T) (st : Store) : Store * nat :=
  let self := List.length (objects st) in
  ({| objects := objects st ++ [ {| index := index; enter := enter;
                                    exit := None; _visits := [] |} ];
      all_created := all_created st ++ [self] |}, self).

Definition recognized (type_ : string) : bool :=
  existsb (String.eqb type_) ["therapist"; "doctor"]%string.

Definition add_visit (type_ : string) (waiting_time service_time : T)
  : M T Patient unit :=
  if negb (recognized type_) then raise (ValueError type_)
  else
    let waiting_time := if waiting_time <? of_Z 1 then of_Z 0 else waiting_time in
    let service_time := if service_time <? of_Z 1 then of_Z 0 else service_time in
    modify (fun self =>
      {| index := index self; enter := enter self; exit := exit self;
         _visits := _visits self ++ [ {| type := type_;
                                         waiting_time := waiting_time;
                                         service_time := service_time |} ] |}).

(** Patients constructed one after the other, each from its
    [(index, enter)]; the result lists their addresses. *)

Fixpoint construct (args : list (Z * T)) (st : Store) : Store * list nat :=
  match args with
  | [] => (st, [])
  | (index, enter) :: args' =>
      let (st1, p) := Patient__init__ index enter st in
      let (st2, ps) := construct args' st1 in
      (st2, p :: ps)
  end.

Definition new_patient (a : Z * T) : Patient :=
  {| index := fst a; enter := snd a; exit := None; _visits := [] |}.

End Patient.

Arguments VisitRecord T : clear implicits.
Arguments Patient T : clear implicits.
Arguments Store T : clear implicits.

(** ** The simpy kernel, as far as objects.py uses it

    [simpy] is the library the program runs on; what follows is its
    [Environment] (clock and event queue), the triggering of events and
    its [Resource] with [request] and [release]. *)

Section simpy.
Context {T : Type} `{PyNumber T}.
Local Open Scope py_scope.

Definition NORMAL : nat := 1.

(** An element [(time, priority, eid, event)] of [env._queue]; the event
    object is named by its identity. *)

Record Entry : Type := {
  at_time : T;
  priority : nat;
  eid : nat;
  event : nat
}.

(** [allocated] counts the event objects created so far: it gives each
    new one its identity. *)

Record Environment : Type := {
  now : T;
  _eid : nat;
  _queue : list Entry;
  allocated : nat
}.

(** [simpy.Environment()]: the clock starts at [initial_time=0]. *)

Definition Environment__init__ : Environment :=
  {| now := of_Z 0; _eid := 0; _queue := []; allocated := 0 |}.

Definition new_event (env : Environment) : Environment * nat :=
  ({| now := now env; _eid := _eid env; _queue := _queue env;
      allocated := S (allocated env) |}, allocated env).

(** [env.schedule(event, priority, delay)] pushes
    [(self._now + delay, priority, next(self._eid), event)]. *)

Definition schedule (ev : nat) (prio : nat) (delay : T) (env : Environment)
  : Environment * Entry :=
  let e := {| at_time := now env + delay; priority := prio;
              eid := _eid env; event := ev |} in
  ({| now := now env; _eid := S (_eid env); _queue := _queue env ++ [e];
      allocated := allocated env |}, e).

(** [event.succeed()] is [env.schedule(event)]: priority [NORMAL], delay
    [0]. *)

Definition succeed (ev : nat) (env : Environment) : Environment * Entry :=
  schedule ev NORMAL (of_Z 0) env.

(** [env.timeout(delay)]: a negative delay is refused, otherwise the new
    event is scheduled [delay] from now. *)

Definition timeout (delay : T) : M T Environment Entry :=
  fun env =>
    if delay <? of_Z 0 then Raise (NegativeDelay delay) env
    else
      let (env1, ev) := new_event env in
      let (env2, e) := schedule ev NORMAL delay env1 in
      Ok e env2.

(** [env.step()] pops the least entry, sets the clock to its time and
    runs the callbacks of its event, among them the resumption of the
    generator that yielded the event.  [fire e] is the part on the
    environment once [e] is the entry popped. *)

Definition same_entry (e1 e2 : Entry) : bool := Nat.eqb (eid e1) (eid e2).

Fixpoint remove_entry (e : Entry) (q : list Entry) : list Entry :=
  match q with
  | [] => []
  | e' :: q' => if same_entry e e' then q' else e' :: remove_entry e q'
  end.

Definition fire (e : Entry) (env : Environment) : Environment :=
  {| now := at_time e; _eid := _eid env; _queue := remove_entry e (_queue env);
     allocated := allocated env |}.

(** Entries are ordered by [(time, priority, eid)]. *)

Definition entry_lt (e1 e2 : Entry) : bool :=
  if at_time e1 <? at_time e2 then true
  else if at_time e2 <? at_time e1 then false
  else if Nat.ltb (priority e1) (priority e2) then true
  else if Nat.ltb (priority e2) (priority e1) then false
  else Nat.ltb (eid e1) (eid e2).

Fixpoint least_entry (e : Entry) (q : list Entry) : Entry :=
  match q with
  | [] => e
  | e' :: q' => least_entry (if entry_lt e' e then e' else e) q'
  end.

Definition step (env : Environment) : option (Entry * Environment) :=
  match _queue env with
  | [] => None                      (* raise EmptySchedule *)
  | e :: q => let m := least_entry e q in Some (m, fire m env)
  end.

(** *** Resource *)

Record Resource : Type := {
  capacity : Z;
  users : list nat;
  put_queue : list nat
}.

Definition Resource__init__ {S} (capacity : Z) : M T S Resource :=
  if (capacity <=? 0)%Z then raise CapacityError
  else ret {| capacity := capacity; users := []; put_queue := [] |}.

Definition count (res : Resource) : nat := List.length (users res).

(** A [Request] event: its identity and, once it has been triggered, the
    entry under which it waits in the event queue. *)

Record Request : Type := {
  request_id : nat;
  triggered : option Entry
}.

(** [_do_put]: the request gets a slot if fewer than [capacity] are in
    use, and is triggered at once. *)

Definition _do_put (ev : nat) (env : Environment) (res : Resource)
  : Environment * Resource * option Entry :=
  if (Z.of_nat (List.length (users res)) <? capacity res)%Z then
    let (env1, e) := succeed ev env in
    (env1, {| capacity := capacity res; users := users res ++ [ev];
              put_queue := put_queue res |}, Some e)
  else (env, res, None).

(** [_trigger_put]: [_do_put] returns [None], so the loop over
    [put_queue] stops after its first element; that request leaves the
    queue if it was triggered.  The result names the request triggered,
    if any. *)

Definition _trigger_put (env : Environment) (res : Resource)
  : Environment * Resource * option (nat * Entry) :=
  match put_queue res with
  | [] => (env, res, None)
  | ev :: rest =>
      match _do_put ev env res with
      | (env1, res1, Some e) =>
          (env1, {| capacity := capacity res1; users := users res1;
                    put_queue := rest |}, Some (ev, e))
      | (env1, res1, None) => (env1, res1, None)
      end
  end.

(** [res.request()]: the new request is appended to [put_queue], then
    [_trigger_put] runs. *)

Definition request (env : Environment) (res : Resource)
  : Environment * Resource * Request :=
  let (env1, ev) := new_event env in
  let res1 := {| capacity := capacity res; users := users res;
                 put_queue := put_queue res ++ [ev] |} in
  match _trigger_put env1 res1 with
  | (env2, res2, Some (ev', e)) =>
      (env2, res2, {| request_id := ev;
                      triggered := if Nat.eqb ev' ev then Some e else None |})
  | (env2, res2, None) => (env2, res2, {| request_id := ev; triggered := None |})
  end.

(** [list.remove(x)]: the first occurrence goes. *)

Fixpoint list_remove (x : nat) (l : list nat) : list nat :=
  match l with
  | [] => []
  | y :: l' => if Nat.eqb x y then l' else y :: list_remove x l'
  end.

(** Leaving the [with] block of a request ([Request.__exit__]): a request
    that was never triggered is taken out of [put_queue]; then
    [res.release(request)] takes it out of [users] and triggers the
    [Release] event.  [granted] tells whether the request has been
    triggered by then. *)

Definition release (req : Request) (granted : bool) (env : Environment) (res : Resource)
  : Environment * Resource :=
  let res1 := if granted then res
              else {| capacity := capacity res; users := users res;
                      put_queue := list_remove (request_id req) (put_queue res) |} in
  let res2 := {| capacity := capacity res1;
                 users := list_remove (request_id req) (users res1);
                 put_queue := put_queue res1 |} in
  let (env1, ev) := new_event env in
  let (env2, _) := succeed ev env1 in
  (env2, res2).

End simpy.

Arguments Entry T : clear implicits.
Arguments Environment T : clear implicits.
Arguments Request T : clear implicits.

(** ** random.Random

    The generator [self.r] is a state and the three methods the program
    calls on it; [normalvariate] has no result when its loop does not
    end. *)

Record RandomOps (T Rng : Type) : Type := {
  random : Rng -> T * Rng;
  randint : Z -> Z -> Rng -> Z * Rng;
  normalvariate : T -> T -> Rng -> option (T * Rng)
}.

(** ** class Polyclinic *)

Section Polyclinic.
Context {T : Type} `{PyNumber T} {Rng : Type} (rnd : RandomOps T Rng).
Local Open Scope py_scope.

Record Polyclinic : Type := {
  env : Environment T;
  r : Rng;
  registry_time : T -> T;
  registry : Resource;
  therapists_number : Z;
  therapists : Resource;
  doctors_number : Z;
  doctors : list Resource;
  queue_at_registry : StatisticValue T;
  queue_at_therapist : StatisticValue T;
  queue_at_doctors : list (StatisticValue T)
}.

Definition set_env (e : Environment T) (self : Polyclinic) : Polyclinic :=
  {| env := e; r := r self; registry_time := registry_time self;
     registry := registry self; therapists_number := therapists_number self;
     therapists := therapists self; doctors_number := doctors_number self;
     doctors := doctors self; queue_at_registry := queue_at_registry self;
     queue_at_therapist := queue_at_therapist self;
     queue_at_doctors := queue_at_doctors self |}.

Definition set_r (g : Rng) (self : Polyclinic) : Polyclinic :=
  {| env := env self; r := g; registry_time := registry_time self;
     registry := registry self; therapists_number := therapists_number self;
     therapists := therapists self; doctors_number := doctors_number self;
     doctors := doctors self; queue_at_registry := queue_at_registry self;
     queue_at_therapist := queue_at_therapist self;
     queue_at_doctors := queue_at_doctors self |}.

Definition set_therapists (res : Resource) (self : Polyclinic) : Polyclinic :=
  {| env := env self; r := r self; registry_time := registry_time self;
     registry := registry self; therapists_number := therapists_number self;
     therapists := res; doctors_number := doctors_number self;
     doctors := doctors self; queue_at_registry := queue_at_registry self;
     queue_at_therapist := queue_at_therapist self;
     queue_at_doctors := queue_at_doctors self |}.

Definition set_doctors (l : list Resource) (self : Polyclinic) : Polyclinic :=
  {| env := env self; r := r self; registry_time := registry_time self;
     registry := registry self; therapists_number := therapists_number self;
     therapists := therapists self; doctors_number := doctors_number self;
     doctors := l; queue_at_registry := queue_at_registry self;
     queue_at_therapist := queue_at_therapist self;
     queue_at_doctors := queue_at_doctors self |}.

Definition set_queue_at_therapist (sv : StatisticValue T) (self : Polyclinic) : Polyclinic :=
  {| env := env self; r := r self; registry_time := registry_time self;
     registry := registry self; therapists_number := therapists_number self;
     therapists := therapists self; doctors_number := doctors_number self;
     doctors := doctors self; queue_at_registry := queue_at_registry self;
     queue_at_therapist := sv;
     queue_at_doctors := queue_at_doctors self |}.

Definition set_queue_at_doctors (l : list (StatisticValue T)) (self : Polyclinic) : Polyclinic :=
  {| env := env self; r := r self; registry_time := registry_time self;
     registry := registry self; therapists_number := therapists_number self;
     therapists := therapists self; doctors_number := doctors_number self;
     doctors := doctors self; queue_at_registry := queue_at_registry self;
     queue_at_therapist := queue_at_therapist self;
     queue_at_doctors := l |}.

(** [Polyclinic(registry_time, env=None)]; [seeded] is the state of
    [random.Random()] after [seed(42)]. *)

Definition Polyclinic__init__ {S} (registry_time : T -> T) (env : option (Environment T))
  (seeded : Rng) : M T S Polyclinic :=
  let env := match env with None => Environment__init__ | Some e => e end in
  registry <- Resource__init__ 1 ;;
  let therapists_number := 8%Z in
  therapists <- Resource__init__ therapists_number ;;
  let doctors_number := 10%Z in
  doctor <- Resource__init__ 1 ;;
  ret {| env := env; r := seeded; registry_time := registry_time;
         registry := registry;
         therapists_number := therapists_number; therapists := therapists;
         doctors_number := doctors_number;
         doctors := repeat doctor (Z.to_nat doctors_number);
         queue_at_registry := StatisticValue__init__;
         queue_at_therapist := StatisticValue__init__;
         queue_at_doctors := repeat StatisticValue__init__ (Z.to_nat doctors_number) |}.

(** The polyclinic [Polyclinic(registry_time)] returns: its capacities
    are positive, no [Resource] is refused. *)

Definition new_polyclinic (registry_time : T -> T) (seeded : Rng) : Polyclinic :=
  match Polyclinic__init__ registry_time None seeded tt with
  | Ok self _ => self
  | Raise _ _ | Hang =>
      let res := {| capacity := 1; users := []; put_queue := [] |} in
      {| env := Environment__init__; r := seeded; registry_time := registry_time;
         registry := res; therapists_number := 0; therapists := res;
         doctors_number := 0; doctors := [];
         queue_at_registry := StatisticValue__init__;
         queue_at_therapist := StatisticValue__init__;
         queue_at_doctors := [] |}
  end.

(** A call on the generator [self.r]. *)

Definition sample {A} (f : Rng -> A * Rng) : M T Polyclinic A :=
  fun self => let (a, g) := f (r self) in Ok a (set_r g self).

Definition therapist_process_time : M T Polyclinic T :=
  n <- sample (randint rnd (5 * 60) (15 * 60)) ;;
  ret (of_Z n).

Definition doctor_process_time : M T Polyclinic T :=
  let mu := of_Z (15 * 60) in
  let sigma := of_Z 150 in          (* 2.5 * 60 *)
  fun self =>
    match normalvariate rnd mu sigma (r self) with
    | Some (d, g) => Ok d (set_r g self)
    | None => Hang
    end.

(** [self.env.timeout(delay)] *)

Definition env_timeout (delay : T) : M T Polyclinic (Entry T) :=
  fun self =>
    match timeout delay (env self) with
    | Ok e env' => Ok e (set_env env' self)
    | Raise x env' => Raise x (set_env env' self)
    | Hang => Hang
    end.

(** Leaving [with ... as request:] through an exception releases the
    request and lets the exception through. *)

Definition on_raise {S A} (c : M T S A) (h : S -> S) : M T S A :=
  fun s => match c s with
           | Raise e s' => Raise e (h s')
           | o => o
           end.

Definition on_polyclinic {P A} (c : M T Polyclinic A) : M T (Polyclinic * P) A :=
  fun '(self, p) => match c self with
                    | Ok a self' => Ok a (self', p)
                    | Raise e self' => Raise e (self', p)
                    | Hang => Hang
                    end.

Definition on_patient {A} (c : M T (Patient T) A) : M T (Polyclinic * Patient T) A :=
  fun '(self, p) => match c p with
                    | Ok a p' => Ok a (self, p')
                    | Raise e p' => Raise e (self, p')
                    | Hang => Hang
                    end.

Definition set_registry (res : Resource) (self : Polyclinic) : Polyclinic :=
  {| env := env self; r := r self; registry_time := registry_time self;
     registry := res; therapists_number := therapists_number self;
     therapists := therapists self; doctors_number := doctors_number self;
     doctors := doctors self; queue_at_registry := queue_at_registry self;
     queue_at_therapist := queue_at_therapist self;
     queue_at_doctors := queue_at_doctors self |}.

Definition set_queue_at_registry (sv : StatisticValue T) (self : Polyclinic) : Polyclinic :=
  {| env := env self; r := r self; registry_time := registry_time self;
     registry := registry self; therapists_number := therapists_number self;
     therapists := therapists self; doctors_number := doctors_number self;
     doctors := doctors self; queue_at_registry := sv;
     queue_at_therapist := queue_at_therapist self;
     queue_at_doctors := queue_at_doctors self |}.

Definition registry_process_time : M T Polyclinic T :=
  u <- sample (random rnd) ;;
  self <- get ;;
  ret (registry_time self u).

(** *** visit_therapist

    The generator, cut at [yield request] and at [yield
    self.env.timeout(...)].  What it keeps from one piece to the next
    (its local variables) is a frame. *)

Record Waiting : Type := {
  w_request : Request T;
  w_index : Z;                 (* the specialist; unused by the therapist *)
  w_time : option T            (* [time] in the branch that counts the queue *)
}.

Record Serving : Type := {
  s_request : Request T;
  s_index : Z;
  s_waiting_time : T;
  s_time : T;
  s_timeout : Entry T
}.

Definition release_therapist (req : Request T) (self : Polyclinic) : Polyclinic :=
  let (env', res') := release req true (env self) (therapists self) in
  set_therapists res' (set_env env' self).

(** From the call to [yield request]. *)

Definition visit_therapist_request : M T Polyclinic Waiting :=
  fun self =>
    let '(env1, res1, req) := request (env self) (therapists self) in
    let self := set_therapists res1 (set_env env1 self) in
    if truthy (count (therapists self)) then
      let self := set_queue_at_therapist
                    (__iadd__ (now (env self)) 1 (queue_at_therapist self)) self in
      let time := now (env self) in
      Ok {| w_request := req; w_index := 0; w_time := Some time |} self
    else
      Ok {| w_request := req; w_index := 0; w_time := None |} self.

(** From the grant of the request to [yield self.env.timeout(...)]. *)

Definition visit_therapist_granted (fr : Waiting) : M T Polyclinic Serving :=
  on_raise
    (waiting_time <-
       match w_time fr with
       | Some time =>
           self <- get ;;
           let waiting_time := now (env self) - time in
           modify (set_queue_at_therapist
                     (__isub__ (now (env self)) 1 (queue_at_therapist self))) ;;;
           ret waiting_time
       | None => ret (of_Z 0)
       end ;;
     self <- get ;;
     let time := now (env self) in
     delay <- therapist_process_time ;;
     e <- env_timeout delay ;;
     ret {| s_request := w_request fr; s_index := w_index fr;
            s_waiting_time := waiting_time; s_time := time; s_timeout := e |})
    (release_therapist (w_request fr)).

(** From the end of the timeout to the end of the generator. *)

Definition visit_therapist_served (fr : Serving) : M T (Polyclinic * Patient T) unit :=
  finally
    (self <- on_polyclinic get ;;
     let service_time := now (env self) - s_time fr in
     on_patient (add_visit "therapist" (s_waiting_time fr) service_time))
    (fun '(self, p) => (release_therapist (s_request fr) self, p)).

(** *** visit_registry

    The same shape without a patient: nothing is recorded. *)

Definition release_registry (req : Request T) (self : Polyclinic) : Polyclinic :=
  let (env', res') := release req true (env self) (registry self) in
  set_registry res' (set_env env' self).

Definition visit_registry_request : M T Polyclinic Waiting :=
  fun self =>
    let '(env1, res1, req) := request (env self) (registry self) in
    let self := set_registry res1 (set_env env1 self) in
    if truthy (count (registry self)) then
      let self := set_queue_at_registry
                    (__iadd__ (now (env self)) 1 (queue_at_registry self)) self in
      Ok {| w_request := req; w_index := 0; w_time := Some (now (env self)) |} self
    else
      Ok {| w_request := req; w_index := 0; w_time := None |} self.

Definition visit_registry_granted (fr : Waiting) : M T Polyclinic Serving :=
  on_raise
    (match w_time fr with
     | Some _ =>
         self <- get ;;
         modify (set_queue_at_registry
                   (__isub__ (now (env self)) 1 (queue_at_registry self)))
     | None => ret tt
     end ;;;
     self <- get ;;
     delay <- registry_process_time ;;
     e <- env_timeout delay ;;
     ret {| s_request := w_request fr; s_index := w_index fr;
            s_waiting_time := of_Z 0; s_time := now (env self); s_timeout := e |})
    (release_registry (w_request fr)).

Definition visit_registry_served (fr : Serving) : M T Polyclinic unit :=
  modify (release_registry (s_request fr)).

(** *** visit_doctor *)

Definition release_doctor (index : Z) (req : Request T) (self : Polyclinic) : Polyclinic :=
  match py_getitem (doctors self) index with
  | Some doctor =>
      let (env', res') := release req true (env self) doctor in
      match py_setitem (doctors self) index res' with
      | Some l => set_doctors l (set_env env' self)
      | None => self
      end
  | None => self
  end.

(** Leaving the [with] block before the generator has been suspended
    at [yield request]: the request is as [doctor.request()] left it,
    triggered or still waiting in [put_queue], and [Request.__exit__]
    cancels it in the second case. *)

Definition withdraw_doctor (index : Z) (req : Request T) (self : Polyclinic) : Polyclinic :=
  match py_getitem (doctors self) index with
  | Some doctor =>
      let granted := match triggered req with Some _ => true | None => false end in
      let (env', res') := release req granted (env self) doctor in
      match py_setitem (doctors self) index res' with
      | Some l => set_doctors l (set_env env' self)
      | None => self
      end
  | None => self
  end.

(** [self.queue_at_doctors[index] += other] and [-= other] *)

Definition queue_at_doctors_update (index : Z)
  (f : StatisticValue T -> StatisticValue T) : M T Polyclinic unit :=
  fun self =>
    match py_getitem (queue_at_doctors self) index with
    | Some sv =>
        match py_setitem (queue_at_doctors self) index (f sv) with
        | Some l => Ok tt (set_queue_at_doctors l self)
        | None => Raise IndexError self
        end
    | None => Raise IndexError self
    end.

Definition visit_doctor_request (index : option Z) : M T Polyclinic Waiting :=
  index <- match index with
           | None =>
               self <- get ;;
               sample (randint rnd 0 (doctors_number self - 1))
           | Some i => ret i
           end ;;
  self <- get ;;
  match py_getitem (doctors self) index with
  | None => raise IndexError
  | Some doctor =>
      let '(env1, doctor, req) := request (env self) doctor in
      modify (fun self =>
                match py_setitem (doctors self) index doctor with
                | Some l => set_doctors l (set_env env1 self)
                | None => self
                end) ;;;
      if truthy (count doctor) then
        on_raise
          (self <- get ;;
           queue_at_doctors_update index (__iadd__ (now (env self)) 1) ;;;
           let time := now (env self) in
           ret {| w_request := req; w_index := index; w_time := Some time |})
          (withdraw_doctor index req)
      else
        ret {| w_request := req; w_index := index; w_time := None |}
  end.

Definition visit_doctor_granted (fr : Waiting) : M T Polyclinic Serving :=
  on_raise
    (waiting_time <-
       match w_time fr with
       | Some time =>
           self <- get ;;
           let waiting_time := now (env self) - time in
           queue_at_doctors_update (w_index fr) (__isub__ (now (env self)) 1) ;;;
           ret waiting_time
       | None => ret (of_Z 0)
       end ;;
     self <- get ;;
     let time := now (env self) in
     delay <- doctor_process_time ;;
     e <- env_timeout delay ;;
     ret {| s_request := w_request fr; s_index := w_index fr;
            s_waiting_time := waiting_time; s_time := time; s_timeout := e |})
    (release_doctor (w_index fr) (w_request fr)).

Definition visit_doctor_served (fr : Serving) : M T (Polyclinic * Patient T) unit :=
  finally
    (self <- on_polyclinic get ;;
     let service_time := now (env self) - s_time fr in
     on_patient (add_visit "therapist" (s_waiting_time fr) service_time))
    (fun '(self, p) => (release_doctor (s_index fr) (s_request fr) self, p)).

End Polyclinic.

Arguments Polyclinic T Rng : clear implicits.
Arguments Waiting T : clear implicits.
Arguments Serving T : clear implicits.

(** ** A visit, as the scheduler runs it

    Both generators have the same shape; [Stage] names the one meant,
    and for the specialist the [index] argument of [visit_doctor]. *)

Inductive Stage : Type :=
| Registry
| Therapist
| Doctor (index : option Z).

Section Visit.
Context {T : Type} `{PyNumber T} {Rng : Type} (rnd : RandomOps T Rng).
Local Open Scope py_scope.

Definition visit_request (st : Stage) : M T (Polyclinic T Rng) (Waiting T) :=
  match st with
  | Registry => visit_registry_request
  | Therapist => visit_therapist_request
  | Doctor index => visit_doctor_request rnd index
  end.

Definition visit_granted (st : Stage) (fr : Waiting T) : M T (Polyclinic T Rng) (Serving T) :=
  match st with
  | Registry => visit_registry_granted rnd fr
  | Therapist => visit_therapist_granted rnd fr
  | Doctor _ => visit_doctor_granted rnd fr
  end.

Definition visit_served (st : Stage) (fr : Serving T)
  : M T (Polyclinic T Rng * Patient T) unit :=
  match st with
  | Registry => on_polyclinic (visit_registry_served fr)
  | Therapist => visit_therapist_served fr
  | Doctor _ => visit_doctor_served fr
  end.

(** The resource a visit requests and the StatisticValue of its queue;
    for the specialist both are found under the index the generator
    settled on. *)

Definition requested_index (st : Stage) (self : Polyclinic T Rng) : Z :=
  match st with
  | Registry | Therapist => 0
  | Doctor (Some i) => i
  | Doctor None => fst (randint rnd 0 (doctors_number self - 1) (r self))
  end.

Definition stage_resource (st : Stage) (index : Z) (self : Polyclinic T Rng)
  : option Resource :=
  match st with
  | Registry => Some (registry self)
  | Therapist => Some (therapists self)
  | Doctor _ => py_getitem (doctors self) index
  end.

Definition stage_statistic (st : Stage) (index : Z) (self : Polyclinic T Rng)
  : option (StatisticValue T) :=
  match st with
  | Registry => Some (queue_at_registry self)
  | Therapist => Some (queue_at_therapist self)
  | Doctor _ => py_getitem (queue_at_doctors self) index
  end.

Definition free_slot (res : Resource) : bool :=
  (Z.of_nat (count res) <? capacity res)%Z.

(** While the generator is suspended the scheduler runs the other
    processes, which act on the shared polyclinic; it resumes the
    generator when it pops the entry of the event the generator yielded,
    the clock being set to the time of that entry.  A request that was
    not triggered when it was made is triggered later, by the release of
    another process: [granted_by] is the entry it gets then.

    [visit] below is the run of a generator that is resumed at both of
    its yields.  A request that no release ever triggers leaves the
    generator suspended at [yield request] for good: no outcome of
    [visit] stands for that run, and what is proved of [visit] is
    proved of the runs in which the grant comes. *)

Record Others : Type := {
  while_waiting : Polyclinic T Rng -> Polyclinic T Rng;
  granted_by : Entry T;
  while_served : Polyclinic T Rng -> Polyclinic T Rng
}.

Definition resume (e : Entry T) (self : Polyclinic T Rng) : Polyclinic T Rng :=
  set_env (fire e (env self)) self.

Definition grant_entry (others : Others) (fr : Waiting T) : Entry T :=
  match triggered (w_request fr) with
  | Some e => e
  | None => granted_by others
  end.

Definition visit (st : Stage) (others : Others)
  : M T (Polyclinic T Rng * Patient T) unit :=
  fr <- on_polyclinic (visit_request st) ;;
  on_polyclinic
    (modify (fun self => resume (grant_entry others fr) (while_waiting others self))) ;;;
  fr' <- on_polyclinic (visit_granted st fr) ;;
  on_polyclinic
    (modify (fun self => resume (s_timeout fr') (while_served others self))) ;;;
  visit_served st fr'.

Definition visit_registry (others : Others) := visit Registry others.
Definition visit_therapist (others : Others) := visit Therapist others.
Definition visit_doctor (others : Others) (index : option Z) := visit (Doctor index) others.

End Visit.

(** ** The flow of a patient *)

Section Flow.
Context {T : Type} `{PyNumber T} {Rng : Type} (rnd : RandomOps T Rng).

(** Modelled from the spec: the last transition of the patient visit
    flow, whose process is not in [src/objects.py] (there [exit] is
    only initialised, to [None]).  Section 4.5: "Departed: record
    exit = now; Process terminates". *)

Definition departed : M T (Polyclinic T Rng * Patient T) unit :=
  fun '(self, p) =>
    Ok tt (self, {| index := index p; enter := enter p;
                    exit := Some (now (env self)); _visits := _visits p |}).

Fixpoint specialists (l : list (option Z * Others (T:=T) (Rng:=Rng)))
  : M T (Polyclinic T Rng * Patient T) unit :=
  match l with
  | [] => ret tt
  | (index, others) :: l' => visit_doctor rnd others index ;;; specialists l'
  end.

(** Modelled from the spec: the patient visit flow of section 4.5,
    "Arrived -> AtRegistry -> (AtTherapist)? -> (AtSpecialist)* ->
    Departed", over the generators of [src/objects.py].  The branch to
    the therapist and the repetitions of the specialist stage are
    decided outside ("externally supplied probability"): they are the
    arguments [at_therapist] and [at_specialists]. *)

Definition patient_flow (at_registry : Others (T:=T) (Rng:=Rng))
  (at_therapist : option (Others (T:=T) (Rng:=Rng)))
  (at_specialists : list (option Z * Others (T:=T) (Rng:=Rng)))
  : M T (Polyclinic T Rng * Patient T) unit :=
  visit_registry rnd at_registry ;;;
  match at_therapist with
  | Some others => visit_therapist rnd others
  | None => ret tt
  end ;;;
  specialists at_specialists ;;;
  departed.

End Flow.

(** ** A simulation run

    What a run does to the Python process it is made in: it builds its
    own [Polyclinic] and constructs a [Patient] for each arrival.  The
    state of the process is the store of the patients. *)

Section Run.
Context {T : Type} `{PyNumber T} {Rng : Type}.

Definition simulation_run (registry_time : T -> T) (seeded : Rng)
  (arrivals : list (Z * T)) : M T (Store T) (Polyclinic T Rng * list nat) :=
  clinic <- Polyclinic__init__ registry_time None seeded ;;
  fun st => let (st', ps) := construct arrivals st in Ok (clinic, ps) st'.

End Run.

(** ** random.Random over the reals

    The state of the generator is the sequence of the values its next
    calls of [random()] return. *)

Section CPythonRandom.
Local Open Scope R_scope.

Definition RandomState : Type := nat -> R.

Definition R_random (s : RandomState) : R * RandomState :=
  (s 0%nat, fun n => s (S n)).

(** [randint(a, b)] takes its integer from the next variate; only its
    range matters here. *)

Definition R_randint (a b : Z) (s : RandomState) : Z * RandomState :=
  let (u, s') := R_random s in
  ((a + Int_part (u * IZR (b - a + 1)))%Z, s').

Definition NV_MAGICCONST : R := 4 * exp (- (1 / 2)) / sqrt 2.

(** [normalvariate(mu, sigma)]: the loop [while True] draws [u1] and
    [u2 = 1.0 - random()] until [zz <= -log(u2)]; [fuel] bounds the
    number of rounds. *)

Fixpoint R_normalvariate (fuel : nat) (mu sigma : R) (s : RandomState)
  : option (R * RandomState) :=
  match fuel with
  | O => None
  | S fuel' =>
      let (u1, s1) := R_random s in
      let (x, s2) := R_random s1 in
      let u2 := 1 - x in
      let z := NV_MAGICCONST * (u1 - 1 / 2) / u2 in
      let zz := z * z / 4 in
      if Rle_dec zz (- ln u2) then Some (mu + z * sigma, s2)
      else R_normalvariate fuel' mu sigma s2
  end.

(** A state of the generator: [random()] returns [0.5 - 2**-38], then
    [1.0 - 2**-40] for ever; both are multiples of [2**-53] in [[0, 1)],
    as every value of [random()] is. *)

Definition two_53 : R := 9007199254740992.

Definition unlucky : RandomState :=
  fun n => match n with
           | O => 4503599627337728 / two_53
           | S _ => 9007199254732800 / two_53
           end.

Definition CPythonRandom (fuel : nat) : RandomOps R RandomState :=
  {| random := R_random;
     randint := R_randint;
     normalvariate := R_normalvariate fuel |}.

(** A new polyclinic whose generator is in that state, and a patient
    who has just been granted specialist 0 in it. *)

Definition unlucky_polyclinic : Polyclinic R RandomState :=
  new_polyclinic (fun u => u * 120) unlucky.

Definition granted_specialist : Waiting R :=
  {| w_request := {| request_id := 0; triggered := None |};
     w_index := 0; w_time := Some 0 |}.

End CPythonRandom.

(** ** A polyclinic to run

    Exact arithmetic on [Q] and a generator that returns the least
    value each time: [0] for [random()], [a] for [randint(a, b)], [mu]
    for [normalvariate(mu, sigma)]. *)

Definition least_random : RandomOps Q nat :=
  {| random := fun s => (0%Q, S s);
     randint := fun a _ s => (a, S s);
     normalvariate := fun mu _ s => Some (mu, S s) |}.

Definition fresh_polyclinic : Polyclinic Q nat :=
  new_polyclinic (fun u => (u * 120)%Q) 0%nat.

Definition first_patient : Patient Q :=
  {| index := 0; enter := 0%Q; exit := None; _visits := [] |}.

(** Nobody else in the polyclinic. *)

Definition alone : Others (T:=Q) (Rng:=nat) :=
  {| while_waiting := fun self => self;
     granted_by := {| at_time := 0%Q; priority := NORMAL; eid := 0; event := 0 |};
     while_served := fun self => self |}.

(** The polyclinic once a first patient has been granted a therapist
    and is being served: one of the eight slots is in use, nobody
    waits. *)

Definition one_with_therapist : Polyclinic Q nat :=
  match visit_request least_random Therapist fresh_polyclinic with
  | Ok fr self1 =>
      match visit_granted least_random Therapist fr
              (resume (grant_entry alone fr) self1) with
      | Ok _ self2 => self2
      | _ => fresh_polyclinic
      end
  | _ => fresh_polyclinic
  end.

(** ** Views of a run

    What the properties of the second part speak of: the net change of
    a sequence of mutations, a clock that does not go back, a sequence
    of calls of [add_visit], the parts of the polyclinic a stage has no
    business with. *)

From Stdlib Require Import Permutation.

Section Views.
Context {T : Type} `{PyNumber T}.
Local Open Scope py_scope.

Definition signed_delta (m : Mutation T) : Z :=
  match m with
  | Iadd _ other => other
  | Isub _ other => (- other)%Z
  end.

Definition net_change (ms : list (Mutation T)) : Z :=
  fold_right (fun m acc => (signed_delta m + acc)%Z) 0%Z ms.

(** No mutation is made at a time before that of an earlier one. *)

Definition clock_never_back (ms : list (Mutation T)) : Prop :=
  StronglySorted (fun a b => (mutation_time b <? mutation_time a) = false) ms.

(** A recorded duration: exactly [0], or not below [1]. *)

Definition floored (x : T) : Prop := x = of_Z 0 \/ (x <? of_Z 1) = false.

Definition record_ok (rec : VisitRecord T) : Prop :=
  recognized (type rec) = true /\
  floored (waiting_time rec) /\ floored (service_time rec).

(** Calls [patient.add_visit(type_, waiting_time, service_time)] made
    one after the other; the first that raises ends the sequence. *)

Fixpoint add_visits (calls : list (string * T * T)) : M T (Patient T) unit :=
  match calls with
  | [] => ret tt
  | (type_, w, s) :: calls' => add_visit type_ w s ;;; add_visits calls'
  end.

(** The state a piece of code ends in, whether it returns or raises. *)

Definition final {S A} (o : Outcome T S A) : option S :=
  match o with
  | Ok _ s => Some s
  | Raise _ s => Some s
  | Hang => None
  end.

End Views.

Section StageViews.
Context {T : Type} `{PyNumber T} {Rng : Type}.

(** What belongs to the other stages: their resources and their
    statistics.  Of the specialists a visit to one touches one place of
    each list; the lists keep their length. *)

Definition foreign (st : Stage) (self : Polyclinic T Rng)
  : list Resource * list (list Resource) * list (StatisticValue T)
    * list (list (StatisticValue T)) * (nat * nat) :=
  match st with
  | Registry =>
      ([therapists self], [doctors self], [queue_at_therapist self],
       [queue_at_doctors self],
       (List.length (doctors self), List.length (queue_at_doctors self)))
  | Therapist =>
      ([registry self], [doctors self], [queue_at_registry self],
       [queue_at_doctors self],
       (List.length (doctors self), List.length (queue_at_doctors self)))
  | Doctor _ =>
      ([registry self; therapists self], [],
       [queue_at_registry self; queue_at_therapist self], [],
       (List.length (doctors self), List.length (queue_at_doctors self)))
  end.

(** The rest of the simulation leaves the polyclinic alone while the
    generator is suspended. *)

Definition undisturbed (others : Others (T:=T) (Rng:=Rng)) : Prop :=
  (forall self, while_waiting others self = self) /\
  (forall self, while_served others self = self).

(** Two spellings [i] and [j] of one place in the lists of length [n]. *)

Definition same_place (n : nat) (i j : Z) : Prop :=
  forall (A : Type) (l : list A), List.length l = n -> py_norm_index l i = py_norm_index l j.

(** The frame of [visit_doctor] with another spelling of the index. *)

Definition reindex {S} (i : Z) (o : Outcome T S (Waiting T)) : Outcome T S (Waiting T) :=
  match o with
  | Ok fr s => Ok {| w_request := w_request fr; w_index := i; w_time := w_time fr |} s
  | o => o
  end.

(** A piece of code keeps a view [f] of the state: the state it ends
    in, returning or raising, shows under [f] what the state it started
    in showed. *)

Definition keeps {S A X} (f : S -> X) (c : M T S A) : Prop :=
  forall s s', final (c s) = Some s' -> f s' = f s.

(** The resource once [request] has left its [with] block. *)

Definition released (req : Request T) (res : Resource) : Resource :=
  {| capacity := capacity res;
     users := list_remove (request_id req) (users res);
     put_queue := put_queue res |}.

(** Leaving the [with] block of a stage. *)

Definition release_stage (st : Stage) (index : Z) (req : Request T)
  (self : Polyclinic T Rng) : Polyclinic T Rng :=
  match st with
  | Registry => release_registry req self
  | Therapist => release_therapist req self
  | Doctor _ => release_doctor index req self
  end.

(** What the documentation of [random.randint(a, b)] promises:
    [a <= N <= b]. *)

Definition randint_in_range (rnd : RandomOps T Rng) : Prop :=
  forall a b s, (a <= b)%Z -> (a <= fst (randint rnd a b s) <= b)%Z.

End StageViews.

(** The polyclinic once a first patient has been granted specialist 0
    and is being served, a second patient, and a rest of the simulation
    that does nothing but grant a waiting request at time [t]. *)

Definition one_with_specialist : Polyclinic Q nat :=
  match visit_request least_random (Doctor (Some 0%Z)) fresh_polyclinic with
  | Ok fr self1 =>
      match visit_granted least_random (Doctor (Some 0%Z)) fr
              (resume (grant_entry alone fr) self1) with
      | Ok _ self2 => self2
      | _ => fresh_polyclinic
      end
  | _ => fresh_polyclinic
  end.

Definition second_patient : Patient Q :=
  {| index := 1; enter := 0%Q; exit := None; _visits := [] |}.

Definition granted_at (t : Q) : Others (T:=Q) (Rng:=nat) :=
  {| while_waiting := fun self => self;
     granted_by := {| at_time := t; priority := NORMAL; eid := 100; event := 100 |};
     while_served := fun self => self |}.

(** * Properties *)

(** ** Comparisons *)

Lemma Rltb_lt (x y : R) : Rltb x y = true <-> (x < y)%R.
Proof. unfold Rltb. destruct (Rlt_dec x y); split; intros; congruence || assumption. Qed.

Lemma Rltb_ge (x y : R) : Rltb x y = false <-> (y <= x)%R.
Proof.
  unfold Rltb. destruct (Rlt_dec x y); split; intros; try congruence; try lra.
Qed.

Lemma Reqb_eq (x y : R) : Reqb x y = true <-> x = y.
Proof. unfold Reqb. destruct (Req_dec_T x y); split; intros; congruence || assumption. Qed.

Lemma Reqb_neq (x y : R) : Reqb x y = false <-> x <> y.
Proof. unfold Reqb. destruct (Req_dec_T x y); split; intros; congruence. Qed.

(** ** StatisticValue *)

Section StatisticValueFacts.
Context {T : Type} `{PyNumber T}.
Local Open Scope py_scope.

Lemma neq_left (x y z : T) : (x =? y) = true -> (x =? z) = (y =? z).
Proof.
  intros E. destruct (y =? z) eqn:Eyz.
  - eapply neq_trans; eassumption.
  - destruct (x =? z) eqn:Exz; [|reflexivity].
    rewrite <- Eyz. symmetry. eapply neq_trans; [|eassumption].
    rewrite neq_sym. exact E.
Qed.

Lemma dict_get_setitem (t k : T) (v : Z) (d : dict T) :
  dict_get t (dict_setitem k v d) = if k =? t then Some v else dict_get t d.
Proof.
  induction d as [|[k' v'] d IH]; simpl.
  - reflexivity.
  - destruct (k' =? k) eqn:E; simpl.
    + rewrite (neq_left _ _ t E). destruct (k =? t); reflexivity.
    + rewrite IH. destruct (k' =? t) eqn:E'; [|reflexivity].
      destruct (k =? t) eqn:E''; [|reflexivity].
      exfalso. rewrite (neq_sym k t) in E''.
      rewrite (neq_trans _ _ _ E' E'') in E. discriminate.
Qed.

Lemma dict_get_insert (t : T) (x : T * Z) (l : list (T * Z)) :
  dict_get t (insert_by_key x l) =
  if fst x =? t then Some (snd x) else dict_get t l.
Proof.
  destruct x as [k v]. simpl.
  induction l as [|[k' v'] l IH]; simpl.
  - reflexivity.
  - destruct (k' <? k) eqn:E; simpl.
    + rewrite IH. destruct (k =? t) eqn:Ek; [|reflexivity].
      apply nlt_neq in E.
      assert (Ekt : (k' =? t) = false).
      { rewrite (neq_sym k' t), <- (neq_left _ _ k' Ek), (neq_sym k k'). exact E. }
      rewrite Ekt. reflexivity.
    + reflexivity.
Qed.

Lemma dict_get_sorted (t : T) (l : list (T * Z)) :
  dict_get t (sorted_by_key l) = dict_get t l.
Proof.
  induction l as [|[k v] l IH]; simpl.
  - reflexivity.
  - rewrite dict_get_insert. simpl. rewrite IH. reflexivity.
Qed.

Lemma In_insert (x y : T * Z) (l : list (T * Z)) :
  In y (insert_by_key x l) -> y = x \/ In y l.
Proof.
  induction l as [|z l IH]; simpl.
  - intros [E|[]]. left. congruence.
  - destruct (fst z <? fst x).
    + intros [E|Hin].
      * right. left. exact E.
      * destruct (IH Hin) as [E|Hl]; [left; exact E | right; right; exact Hl].
    + intros [E|Hin]; [left; congruence | right; exact Hin].
Qed.

Lemma dict_get_None_not_In (k : T) (l : list (T * Z)) (y : T * Z) :
  dict_get k l = None -> In y l -> (fst y =? k) = false.
Proof.
  induction l as [|[k' v'] l IH]; simpl.
  - intros _ [].
  - destruct (k' =? k) eqn:E; [discriminate|].
    intros Hn [Ey|Hin].
    + subst y. exact E.
    + apply IH; assumption.
Qed.

Lemma dict_setitem_ok (k : T) (v : Z) (d : dict T) :
  dict_ok d -> dict_ok (dict_setitem k v d).
Proof.
  induction 1 as [|k' v' d Hfresh Hd IH]; simpl.
  - constructor; [reflexivity | constructor].
  - destruct (k' =? k) eqn:E.
    + constructor; assumption.
    + constructor; [|exact IH].
      rewrite dict_get_setitem, Hfresh.
      rewrite neq_sym, E. reflexivity.
Qed.

Lemma insert_sorted (x : T * Z) (l : list (T * Z)) :
  dict_get (fst x) l = None ->
  StronglySorted key_lt l -> StronglySorted key_lt (insert_by_key x l).
Proof.
  intros Hfresh Hs. induction Hs as [|y l Hs IH Hall]; simpl.
  - constructor; constructor.
  - simpl in Hfresh. destruct y as [k' v']. simpl in *.
    destruct (k' =? fst x) eqn:E; [discriminate|].
    destruct (k' <? fst x) eqn:Hlt.
    + constructor; [exact (IH Hfresh)|].
      apply Forall_forall. intros z Hz.
      destruct (In_insert _ _ _ Hz) as [->|Hl].
      * exact Hlt.
      * rewrite Forall_forall in Hall. exact (Hall z Hl).
    + assert (Hx : (fst x <? k') = true).
      { destruct (fst x <? k') eqn:Hxk; [reflexivity|].
        rewrite (nlt_total _ _ Hlt Hxk) in E. discriminate. }
      constructor; [constructor; assumption|].
      constructor; [exact Hx|].
      apply Forall_forall. intros z Hz.
      rewrite Forall_forall in Hall.
      unfold key_lt. eapply nlt_trans; [exact Hx | exact (Hall z Hz)].
Qed.

Lemma sorted_by_key_sorted (l : list (T * Z)) :
  dict_ok l -> StronglySorted key_lt (sorted_by_key l).
Proof.
  induction 1 as [|k v d Hfresh Hd IH]; simpl.
  - constructor.
  - apply insert_sorted; [|exact IH].
    simpl. rewrite dict_get_sorted. exact Hfresh.
Qed.

Lemma sorted_In_get (l : list (T * Z)) (t : T) (v : Z) :
  StronglySorted key_lt l -> In (t, v) l -> dict_get t l = Some v.
Proof.
  induction 1 as [|[k' v'] l Hs IH Hall]; simpl.
  - intros [].
  - intros [E|Hin].
    + inversion E; subst. rewrite neq_refl. reflexivity.
    + rewrite Forall_forall in Hall. specialize (Hall _ Hin).
      unfold key_lt in Hall. simpl in Hall.
      rewrite (nlt_neq _ _ Hall). exact (IH Hin).
Qed.

Lemma mutate_history (self : StatisticValue T) (m : Mutation T) :
  _history (mutate self m) =
  dict_setitem (mutation_time m) (value (mutate self m)) (_history self).
Proof. destruct m; reflexivity. Qed.

Lemma mutations_ok (ms : list (Mutation T)) (self : StatisticValue T) :
  dict_ok (_history self) -> dict_ok (_history (mutations ms self)).
Proof.
  revert self. induction ms as [|m ms IH]; intros self Hok; simpl.
  - exact Hok.
  - apply IH. rewrite mutate_history. apply dict_setitem_ok. exact Hok.
Qed.

Lemma mutations_last_write (t : T) (ms : list (Mutation T)) (self : StatisticValue T) :
  dict_get t (_history (mutations ms self)) =
  last_write t ms self (dict_get t (_history self)).
Proof.
  revert self. induction ms as [|m ms IH]; intros self; simpl.
  - reflexivity.
  - rewrite IH, mutate_history, dict_get_setitem. reflexivity.
Qed.

(** C7. For every sequence of mutations of a new StatisticValue,
    [history] is in ascending order of time, holds under each time the
    value written by the last mutation made at that time, and holds
    nothing else. *)

Theorem history_sorted_last_write_wins (ms : list (Mutation T)) :
  let self := mutations ms StatisticValue__init__ in
  StronglySorted key_lt (history self) /\
  (forall t, dict_get t (history self) = last_write t ms StatisticValue__init__ None) /\
  (forall t v, In (t, v) (history self) ->
               last_write t ms StatisticValue__init__ None = Some v).
Proof.
  intros self.
  assert (Hs : StronglySorted key_lt (history self)).
  { apply sorted_by_key_sorted. apply mutations_ok. constructor. }
  assert (Hg : forall t, dict_get t (history self)
                         = last_write t ms StatisticValue__init__ None).
  { intros t. unfold history. rewrite dict_get_sorted.
    apply (mutations_last_write t ms StatisticValue__init__). }
  split; [exact Hs|]. split; [exact Hg|].
  intros t v Hin. rewrite <- Hg. apply sorted_In_get; assumption.
Qed.

(** *** The running maximum *)

Lemma greatest_app (a b : list Z) :
  greatest (a ++ b) = Z.max (greatest a) (greatest b).
Proof.
  unfold greatest. induction a as [|x a IH]; simpl.
  - assert (0 <= fold_right Z.max 0 b)%Z.
    { induction b; simpl; lia. }
    lia.
  - rewrite IH. lia.
Qed.

Lemma greatest_nonneg (l : list Z) : (0 <= greatest l)%Z.
Proof. unfold greatest. induction l; simpl; lia. Qed.

Lemma greatest_bound (l : list Z) (b : Z) :
  (0 <= b)%Z -> Forall (fun v => (v <= b)%Z) l -> (greatest l <= b)%Z.
Proof.
  intros Hb. unfold greatest. induction 1; simpl; lia.
Qed.

Lemma greatest_In (l : list Z) (v : Z) : In v l -> (v <= greatest l)%Z.
Proof.
  unfold greatest. induction l as [|x l IH]; simpl.
  - intros [].
  - intros [->|Hin]; [lia | specialize (IH Hin); lia].
Qed.

Lemma dict_setitem_values (k : T) (v : Z) (d : dict T) (b : Z) :
  (v <= b)%Z -> Forall (fun x => (x <= b)%Z) (map snd d) ->
  Forall (fun x => (x <= b)%Z) (map snd (dict_setitem k v d)).
Proof.
  intros Hv. induction d as [|[k' v'] d IH]; simpl; intros Hall.
  - constructor; [exact Hv | constructor].
  - inversion Hall; subst. destruct (k' =? k); simpl.
    + constructor; assumption.
    + constructor; [assumption | apply IH; assumption].
Qed.

Lemma dict_setitem_In (k : T) (v : Z) (d : dict T) :
  In v (map snd (dict_setitem k v d)).
Proof.
  induction d as [|[k' v'] d IH]; simpl.
  - left. reflexivity.
  - destruct (k' =? k); simpl; [left; reflexivity | right; exact IH].
Qed.

Lemma ever_recorded_head (ms : list (Mutation T)) (self : StatisticValue T) (v : Z) :
  In v (map snd (_history self)) -> (v <= greatest (ever_recorded ms self))%Z.
Proof.
  intros Hin. apply greatest_In. destruct ms; simpl; apply in_or_app; left; exact Hin.
Qed.

Lemma max_value_run (ms : list (Mutation T)) (self : StatisticValue T) :
  forallb decrement_nonnegative ms = true ->
  (0 <= max_value self)%Z ->
  (value self <= max_value self)%Z ->
  Forall (fun v => (v <= max_value self)%Z) (map snd (_history self)) ->
  max_value (mutations ms self)
  = Z.max (max_value self) (greatest (ever_recorded ms self)).
Proof.
  revert self. induction ms as [|m ms IH]; intros self Hd H0 Hv Hh.
  - simpl. rewrite app_nil_r.
    pose proof (greatest_bound H0 Hh). lia.
  - simpl in Hd. apply andb_true_iff in Hd. destruct Hd as [Hm Hd].
    simpl. rewrite greatest_app.
    pose proof (greatest_bound H0 Hh) as Hb.
    assert (Hin : In (value (mutate self m)) (map snd (_history (mutate self m)))).
    { rewrite mutate_history. apply dict_setitem_In. }
    pose proof (ever_recorded_head ms (mutate self m) _ Hin) as Hle.
    rewrite IH; trivial.
    + destruct m as [now other|now other]; unfold max_value, value in *; simpl in *; lia.
    + destruct m as [now other|now other]; unfold max_value, value in *; simpl in *; lia.
    + destruct m as [now other|now other]; unfold max_value, value in *; simpl in *.
      * lia.
      * apply Z.leb_le in Hm. lia.
    + rewrite mutate_history. apply dict_setitem_values.
      * destruct m as [now other|now other]; unfold max_value, value in *; simpl in *.
        -- lia.
        -- apply Z.leb_le in Hm. lia.
      * eapply Forall_impl; [|exact Hh]. simpl. intros a Ha.
        destruct m as [now other|now other]; unfold max_value, value in *; simpl in *; lia.
Qed.

(** C5, amended.  After any sequence of increments, of any delta, and
    of decrements of a delta that is not negative, [max_value] is the
    greatest of 0 and of the values that have been in the history at
    any point of the run. *)

Theorem max_value_greatest_recorded (ms : list (Mutation T)) :
  forallb decrement_nonnegative ms = true ->
  max_value (mutations ms StatisticValue__init__)
  = greatest (ever_recorded ms StatisticValue__init__).
Proof.
  intros Hd.
  rewrite (max_value_run ms StatisticValue__init__ Hd);
    try (simpl; lia); try (simpl; constructor).
  unfold max_value. simpl.
  pose proof (greatest_nonneg (ever_recorded ms (StatisticValue__init__ (T:=T)))).
  lia.
Qed.

End StatisticValueFacts.

(** A run with an increment of -2 and two mutations at time 5. *)

Lemma max_value_greatest_recorded_witness :
  let ms := [Iadd 0%Q 3; Isub 5%Q 2; Iadd 5%Q (-2); Isub (7 # 2) 0] in
  forallb decrement_nonnegative ms = true /\
  max_value (mutations ms StatisticValue__init__) = 3%Z /\
  greatest (ever_recorded ms StatisticValue__init__) = 3%Z.
Proof.
  intros ms. split; [reflexivity|]. split; [reflexivity|].
  rewrite <- (max_value_greatest_recorded ms); reflexivity.
Defined.

(** C5 as stated fails on a decrement of a negative delta: the value
    rises to 1 and is recorded, [max_value] stays 0. *)

Lemma max_value_misses_negative_decrement :
  let ms := [Isub 0%Q (-1)] in
  max_value (mutations ms StatisticValue__init__) = 0%Z /\
  greatest (ever_recorded ms StatisticValue__init__) = 1%Z /\
  max_value (mutations ms StatisticValue__init__)
  <> greatest (ever_recorded ms StatisticValue__init__).
Proof.
  intros ms. split; [reflexivity|]. split; [reflexivity|]. discriminate.
Qed.

Example history_example :
  history (mutations [Iadd 5%Q 1; Iadd 2%Q 1; Isub (10 # 2) 1; Iadd 3%Q 4]
                     StatisticValue__init__)
  = [(2%Q, 2%Z); (3%Q, 5%Z); (5%Q, 1%Z)].
Proof. reflexivity. Qed.

(** ** Patient *)

Section PatientFacts.
Context {T : Type} `{PyNumber T}.
Local Open Scope py_scope.

Lemma recognized_spec (type_ : string) :
  recognized type_ = true <-> type_ = "therapist"%string \/ type_ = "doctor"%string.
Proof.
  unfold recognized. simpl. rewrite !orb_true_iff, !String.eqb_eq.
  intuition discriminate.
Qed.

(** C3. A call of [add_visit] with a recognized stage type records a
    waiting time below 1 as exactly 0 and any other unchanged, and
    likewise, on its own, the service time. *)

Theorem add_visit_floors_below_one (type_ : string) (w s : T) (self : Patient T) :
  recognized type_ = true ->
  exists rec,
    add_visit type_ w s self
    = Ok tt {| index := index self; enter := enter self; exit := exit self;
               _visits := _visits self ++ [rec] |} /\
    type rec = type_ /\
    ((w <? of_Z 1) = true -> waiting_time rec = of_Z 0) /\
    ((w <? of_Z 1) = false -> waiting_time rec = w) /\
    ((s <? of_Z 1) = true -> service_time rec = of_Z 0) /\
    ((s <? of_Z 1) = false -> service_time rec = s).
Proof.
  intros Hr. unfold add_visit. rewrite Hr. simpl.
  eexists. split; [reflexivity|]. simpl.
  split; [reflexivity|].
  destruct (w <? of_Z 1), (s <? of_Z 1); repeat split; congruence.
Qed.

(** C6. [add_visit] raises exactly when the stage type is neither
    ['therapist'] nor ['doctor'], and then it leaves the patient, hence
    its visits, as they were. *)

Theorem add_visit_raises_iff_unrecognized (type_ : string) (w s : T) (self : Patient T) :
  ((exists e self', add_visit type_ w s self = Raise e self')
   <-> (type_ <> "therapist"%string /\ type_ <> "doctor"%string)) /\
  (forall e self', add_visit type_ w s self = Raise e self' ->
                   e = ValueError type_ /\ self' = self /\ visits self' = visits self).
Proof.
  pose proof (recognized_spec type_) as Hspec.
  unfold add_visit. destruct (recognized type_) eqn:Hr; simpl.
  - split.
    + split.
      * intros (e & self' & E). discriminate.
      * intros [H1 H2]. destruct Hspec as [Hs _].
        destruct (Hs eq_refl); contradiction.
    + intros e self' E. discriminate.
  - split.
    + split.
      * intros _. split; intros E; subst; discriminate.
      * intros _. eexists. eexists. reflexivity.
    + intros e self' E. unfold raise in E. inversion E; subst. auto.
Qed.

Lemma add_visit_exit (type_ : string) (w s : T) (self self' : Patient T) :
  add_visit type_ w s self = Ok tt self' -> exit self' = exit self.
Proof.
  unfold add_visit. destruct (negb (recognized type_)).
  - discriminate.
  - unfold modify. intros E. inversion E. reflexivity.
Qed.

(** *** Patient.all_created *)

Lemma construct_spec (args : list (Z * T)) (st : Store T) :
  construct args st
  = ({| objects := objects st ++ map new_patient args;
        all_created := all_created st
                       ++ seq (List.length (objects st)) (List.length args) |},
     seq (List.length (objects st)) (List.length args)).
Proof.
  revert st. induction args as [|[i e] args IH]; intros st; simpl.
  - rewrite !app_nil_r. destruct st; reflexivity.
  - rewrite IH. simpl. rewrite length_app. simpl.
    rewrite Nat.add_1_r, <- !app_assoc. reflexivity.
Qed.

Lemma nth_error_seq_map {A} (pre l : list A) (k : nat) (x : A) :
  nth_error l k = Some x ->
  nth_error (pre ++ l) (List.length pre + k) = Some x.
Proof.
  intros E. rewrite nth_error_app2 by lia.
  replace (List.length pre + k - List.length pre)%nat with k by lia. exact E.
Qed.

Lemma Forall2_seq_objects (pre : list (Patient T)) (post : list (Patient T))
  (args : list (Z * T)) :
  Forall2 (fun p a => nth_error (pre ++ map new_patient args ++ post) p
                      = Some (new_patient a))
          (seq (List.length pre) (List.length args)) args.
Proof.
  revert pre. induction args as [|a args IH]; intros pre; simpl.
  - constructor.
  - constructor.
    + rewrite nth_error_app2 by lia. rewrite Nat.sub_diag. reflexivity.
    + specialize (IH (pre ++ [new_patient a])).
      rewrite length_app in IH. simpl in IH. rewrite Nat.add_1_r in IH.
      rewrite <- app_assoc in IH. exact IH.
Qed.

Lemma simulation_run_spec {Rng : Type} (rt : T -> T) (seed : Rng)
  (arr : list (Z * T)) (st : Store T) :
  exists c,
    simulation_run rt seed arr st
    = Ok (c, seq (List.length (objects st)) (List.length arr))
         {| objects := objects st ++ map new_patient arr;
            all_created := all_created st
                           ++ seq (List.length (objects st)) (List.length arr) |}.
Proof.
  unfold simulation_run, bind, Polyclinic__init__, Resource__init__, ret. simpl.
  rewrite construct_spec. eexists. reflexivity.
Qed.

(** C9. Every Patient constructed is appended on construction, in the
    order of construction, to the one list [Patient.all_created] of the
    process: after a second run, with a Polyclinic of its own, the list
    is what it was before the first run, then the patients of the first
    run, then those of the second, each address still naming the patient
    constructed. *)

Theorem all_created_shared_across_runs {Rng : Type}
  (rt1 rt2 : T -> T) (seed1 seed2 : Rng) (arr1 arr2 : list (Z * T)) (st : Store T) :
  exists c1 ps1 st1 c2 ps2 st2,
    simulation_run rt1 seed1 arr1 st = Ok (c1, ps1) st1 /\
    simulation_run rt2 seed2 arr2 st1 = Ok (c2, ps2) st2 /\
    all_created st1 = all_created st ++ ps1 /\
    all_created st2 = all_created st ++ ps1 ++ ps2 /\
    Forall2 (fun p a => nth_error (objects st1) p = Some (new_patient a)) ps1 arr1 /\
    Forall2 (fun p a => nth_error (objects st2) p = Some (new_patient a)) ps1 arr1 /\
    Forall2 (fun p a => nth_error (objects st2) p = Some (new_patient a)) ps2 arr2.
Proof.
  destruct (simulation_run_spec rt1 seed1 arr1 st) as [c1 E1].
  match type of E1 with _ = Ok _ ?s => set (st1 := s) in * end.
  destruct (simulation_run_spec rt2 seed2 arr2 st1) as [c2 E2].
  exists c1, (seq (List.length (objects st)) (List.length arr1)), st1.
  exists c2, (seq (List.length (objects st1)) (List.length arr2)).
  eexists. split; [exact E1|]. split; [exact E2|].
  simpl. split; [reflexivity|]. split; [rewrite <- app_assoc; reflexivity|].
  split; [|split].
  - pose proof (Forall2_seq_objects (objects st) [] arr1) as F.
    rewrite app_nil_r in F. exact F.
  - pose proof (Forall2_seq_objects (objects st) (map new_patient arr2) arr1) as F.
    rewrite app_assoc in F. exact F.
  - pose proof (Forall2_seq_objects (objects st ++ map new_patient arr1) [] arr2) as F.
    rewrite app_nil_r in F. exact F.
Qed.

End PatientFacts.

Lemma add_visit_floors_below_one_witness :
  exists rec,
    add_visit "doctor" (1 # 2) (103 # 5) first_patient
    = Ok tt {| index := 0; enter := 0%Q; exit := None; _visits := [rec] |} /\
    waiting_time rec = 0%Q /\ service_time rec = (103 # 5)%Q.
Proof.
  destruct (add_visit_floors_below_one "doctor" (1 # 2)%Q (103 # 5)%Q first_patient
              eq_refl) as (rec & E & _ & Hw & _ & _ & Hs).
  exists rec. split; [exact E|].
  split; [apply Hw; reflexivity | apply Hs; reflexivity].
Defined.

Lemma add_visit_raises_iff_unrecognized_witness :
  add_visit "nurse" 5%Q 7%Q first_patient = Raise (ValueError "nurse") first_patient.
Proof.
  destruct (add_visit_raises_iff_unrecognized "nurse" 5%Q 7%Q first_patient)
    as [[_ Hraise] Hsame].
  destruct Hraise as (e & self' & E); [split; discriminate|].
  destruct (Hsame e self' E) as (-> & -> & _). exact E.
Defined.

Example all_created_two_runs :
  let run := simulation_run (Rng:=nat) (fun u : Q => u) 0%nat in
  match run [(0%Z, 10%Q); (1%Z, 25%Q)] empty_store with
  | Ok _ st1 =>
      match run [(0%Z, 7%Q)] st1 with
      | Ok _ st2 => all_created st2
      | _ => []
      end
  | _ => []
  end = [0; 1; 2]%nat.
Proof. reflexivity. Qed.

(** ** Polyclinic *)

Section MonadFacts.
Context {T S : Type}.

Lemma bind_Ok {A B} (c : M T S A) (k : A -> M T S B) (s s' : S) (b : B) :
  bind c k s = Ok b s' -> exists a s1, c s = Ok a s1 /\ k a s1 = Ok b s'.
Proof.
  unfold bind. destruct (c s) as [a s1| |]; try discriminate.
  intros E. exists a, s1. split; [reflexivity | exact E].
Qed.

Lemma on_raise_Ok {A} (c : M T S A) (h : S -> S) (s s' : S) (a : A) :
  on_raise c h s = Ok a s' -> c s = Ok a s'.
Proof.
  unfold on_raise. destruct (c s); try discriminate. trivial.
Qed.

Lemma finally_Ok {A} (c : M T S A) (h : S -> S) (s s' : S) (a : A) :
  finally c h s = Ok a s' -> exists s1, c s = Ok a s1 /\ s' = h s1.
Proof.
  unfold finally. destruct (c s) as [a1 s1| |]; try discriminate.
  intros E. inversion E; subst. exists s1. split; reflexivity.
Qed.

End MonadFacts.

Section KernelFacts.
Context {T : Type} `{PyNumber T}.

(** [env.step()] leaves the clock at the time of the entry it pops. *)

Lemma step_clock (env env' : Environment T) (e : Entry T) :
  step env = Some (e, env') -> now env' = at_time e.
Proof.
  unfold step. destruct (_queue env) as [|e0 q]; [discriminate|].
  intros E. inversion E; subst. reflexivity.
Qed.

End KernelFacts.

Section ListFacts.
Context {A : Type}.

Lemma list_set_length (l : list A) (k : nat) (x : A) :
  List.length (list_set l k x) = List.length l.
Proof.
  revert k. induction l as [|y l IH]; intros [|k]; simpl; try reflexivity.
  rewrite IH. reflexivity.
Qed.

Lemma nth_error_list_set (l : list A) (k : nat) (x y : A) :
  nth_error l k = Some y -> nth_error (list_set l k x) k = Some x.
Proof.
  revert k. induction l as [|z l IH]; intros [|k]; simpl; try discriminate.
  - reflexivity.
  - apply IH.
Qed.

Lemma py_norm_index_length (l l' : list A) (i : Z) :
  List.length l = List.length l' -> py_norm_index l i = py_norm_index l' i.
Proof. unfold py_norm_index. intros ->. reflexivity. Qed.

Lemma py_getitem_setitem (l l' : list A) (i : Z) (x y : A) :
  py_getitem l i = Some y -> py_setitem l i x = Some l' ->
  py_getitem l' i = Some x.
Proof.
  unfold py_getitem, py_setitem.
  destruct (py_norm_index l i) as [k|] eqn:E; try discriminate.
  intros Hn Hs. inversion Hs; subst.
  rewrite (py_norm_index_length (list_set l k x) l i (list_set_length l k x)), E.
  eapply nth_error_list_set. exact Hn.
Qed.

Lemma py_setitem_Some (l : list A) (i : Z) (x y : A) :
  py_getitem l i = Some y -> py_setitem l i x = Some
    (match py_norm_index l i with Some k => list_set l k x | None => l end).
Proof.
  unfold py_getitem, py_setitem.
  destruct (py_norm_index l i); [reflexivity | discriminate].
Qed.

End ListFacts.

Section PolyclinicFacts.
Context {T : Type} `{PyNumber T} {Rng : Type} (rnd : RandomOps T Rng).
Local Open Scope py_scope.

(** *** Requests *)

Lemma request_now (env env1 : Environment T) (res res1 : Resource) (req : Request T) :
  request env res = (env1, res1, req) -> now env1 = now env.
Proof.
  unfold request, _trigger_put, _do_put, succeed, schedule, new_event. simpl.
  destruct (put_queue res ++ [allocated env]) as [|ev rest]; simpl.
  - intros E. inversion E. reflexivity.
  - destruct (Z.of_nat (List.length (users res)) <? capacity res)%Z; simpl;
      intros E; inversion E; reflexivity.
Qed.

(** A request made when a slot is free and nobody waits is triggered at
    once, under the time [now + 0], and the requester is among the
    users. *)

Lemma request_immediate (env : Environment T) (res : Resource) :
  free_slot res = true -> put_queue res = [] ->
  exists env1 res1 req e,
    request env res = (env1, res1, req) /\
    triggered req = Some e /\
    at_time e = now env + of_Z 0 /\
    count res1 = S (count res).
Proof.
  unfold free_slot, count. intros Hfree Hq.
  unfold request, _trigger_put, _do_put, succeed, schedule, new_event. simpl.
  rewrite Hq. simpl. rewrite Hfree. simpl. rewrite Nat.eqb_refl.
  do 4 eexists. split; [reflexivity|]. simpl.
  split; [reflexivity|]. split; [reflexivity|].
  rewrite length_app. simpl. lia.
Qed.

(** The guard [if resource.count:] comes after [resource.request()]:
    on a resource with a capacity of at least 1, the only ones
    [simpy.Resource] builds, the new request has a slot or every slot is
    in use, and the count the guard reads is never 0. *)

Lemma request_count_positive (env env1 : Environment T) (res res1 : Resource)
  (req : Request T) :
  (1 <= capacity res)%Z ->
  request env res = (env1, res1, req) -> truthy (count res1) = true.
Proof.
  intros Hcap. unfold request, _trigger_put, _do_put, succeed, schedule, new_event.
  simpl.
  destruct (put_queue res ++ [allocated env]) as [|ev rest] eqn:Eq;
    [destruct (put_queue res); discriminate Eq|].
  simpl.
  destruct (Z.of_nat (List.length (users res)) <? capacity res)%Z eqn:Efree; simpl;
    intros E; inversion E; subst; clear E; unfold truthy, count; simpl.
  - rewrite length_app. simpl.
    destruct (List.length (users res) + 1)%nat eqn:El; [lia | reflexivity].
  - apply Z.ltb_ge in Efree.
    destruct (List.length (users res)) eqn:El; [simpl in Efree; lia | reflexivity].
Qed.

Lemma sample_Ok {A} (f : Rng -> A * Rng) (self self' : Polyclinic T Rng) (a : A) :
  sample f self = Ok a self' -> self' = set_r (snd (f (r self))) self /\ a = fst (f (r self)).
Proof.
  unfold sample. destruct (f (r self)) as [a' g]. intros E. inversion E. auto.
Qed.

Lemma env_timeout_Ok (delay : T) (self self' : Polyclinic T Rng) (e : Entry T) :
  env_timeout delay self = Ok e self' ->
  exists env', self' = set_env env' self /\ at_time e = now (env self) + delay
               /\ (delay <? of_Z 0) = false.
Proof.
  unfold env_timeout, timeout, schedule, new_event.
  destruct (delay <? of_Z 0); simpl; [discriminate|].
  intros E. inversion E; subst. eexists. split; [reflexivity|]. auto.
Qed.

Lemma doctor_process_time_Ok (self self' : Polyclinic T Rng) (d : T) :
  doctor_process_time rnd self = Ok d self' ->
  exists g, normalvariate rnd (of_Z (15 * 60)) (of_Z 150) (r self) = Some (d, g)
            /\ self' = set_r g self.
Proof.
  unfold doctor_process_time.
  destruct (normalvariate rnd (of_Z (15 * 60)) (of_Z 150) (r self)) as [[d' g]|];
    [|discriminate].
  intros E. inversion E; subst. exists g. auto.
Qed.

Lemma queue_at_doctors_update_Ok (index : Z) (f : StatisticValue T -> StatisticValue T)
  (self self' : Polyclinic T Rng) (u : unit) :
  queue_at_doctors_update index f self = Ok u self' ->
  exists sv l,
    py_getitem (queue_at_doctors self) index = Some sv /\
    py_setitem (queue_at_doctors self) index (f sv) = Some l /\
    self' = set_queue_at_doctors l self.
Proof.
  unfold queue_at_doctors_update.
  destruct (py_getitem (queue_at_doctors self) index) as [sv|] eqn:Eg; [|discriminate].
  destruct (py_setitem (queue_at_doctors self) index (f sv)) as [l|] eqn:Es;
    [|discriminate].
  intros E. inversion E; subst. exists sv, l. auto.
Qed.

Ltac inv_ok :=
  repeat match goal with
  | E : on_raise _ _ _ = Ok _ _ |- _ => apply on_raise_Ok in E
  | E : bind _ _ _ = Ok _ _ |- _ =>
      apply bind_Ok in E; destruct E as (? & ? & ? & E)
  | E : ret _ _ = Ok _ _ |- _ => unfold ret in E; inversion E; subst; clear E
  | E : get _ = Ok _ _ |- _ => unfold get in E; inversion E; subst; clear E
  | E : modify _ _ = Ok _ _ |- _ => unfold modify in E; inversion E; subst; clear E
  | E : sample _ _ = Ok _ _ |- _ =>
      apply sample_Ok in E; destruct E as [? ?]; subst
  | E : env_timeout _ _ = Ok _ _ |- _ =>
      apply env_timeout_Ok in E; destruct E as (? & ? & ? & ?); subst
  | E : doctor_process_time _ _ = Ok _ _ |- _ =>
      apply doctor_process_time_Ok in E; destruct E as (? & ? & ?); subst
  | E : therapist_process_time _ _ = Ok _ _ |- _ => unfold therapist_process_time in E
  | E : registry_process_time _ _ = Ok _ _ |- _ => unfold registry_process_time in E
  | E : queue_at_doctors_update _ _ _ = Ok _ _ |- _ =>
      apply queue_at_doctors_update_Ok in E; destruct E as (? & ? & ? & ? & ?); subst
  end.

(** *** The queue statistic *)

(** The guard decides both ends: the StatisticValue of the stage is
    incremented before the wait and decremented on grant when the count
    read after the request is not zero, and left alone at both ends
    otherwise. *)

Lemma guard_brackets_the_wait (st : Stage)
  (self self1 : Polyclinic T Rng) (fr : Waiting T) :
  visit_request rnd st self = Ok fr self1 ->
  exists res,
    stage_resource st (w_index fr) self1 = Some res /\
    stage_statistic st (w_index fr) self1
    = option_map (fun sv => if truthy (count res)
                            then __iadd__ (now (env self)) 1 sv else sv)
                 (stage_statistic st (w_index fr) self) /\
    forall self2 fr' self3,
      visit_granted rnd st fr self2 = Ok fr' self3 ->
      stage_statistic st (w_index fr) self3
      = option_map (fun sv => if truthy (count res)
                              then __isub__ (now (env self2)) 1 sv else sv)
                   (stage_statistic st (w_index fr) self2).
Proof.
  destruct st as [| |index]; simpl.
  - (* visit_registry *)
    unfold visit_registry_request.
    destruct (request (env self) (registry self)) as [[env1 res1] req] eqn:Er.
    pose proof (request_now _ _ Er) as Hnow. simpl.
    destruct (truthy (count res1)) eqn:Ec; intros E; inversion E; subst; clear E;
      exists res1; simpl; rewrite Ec; (split; [reflexivity|]);
      (split; [rewrite ?Hnow; reflexivity|]);
      intros self2 fr' self3 E; unfold visit_registry_granted in E; simpl in E;
      inv_ok; reflexivity.
  - (* visit_therapist *)
    unfold visit_therapist_request.
    destruct (request (env self) (therapists self)) as [[env1 res1] req] eqn:Er.
    pose proof (request_now _ _ Er) as Hnow. simpl.
    destruct (truthy (count res1)) eqn:Ec; intros E; inversion E; subst; clear E;
      exists res1; simpl; rewrite Ec; (split; [reflexivity|]);
      (split; [rewrite ?Hnow; reflexivity|]);
      intros self2 fr' self3 E; unfold visit_therapist_granted in E; simpl in E;
      inv_ok; reflexivity.
  - (* visit_doctor *)
    unfold visit_doctor_request. intros E.
    apply bind_Ok in E. destruct E as (i & s0 & Ei & E).
    apply bind_Ok in E. destruct E as (s0' & s0'' & Eg & E).
    unfold get in Eg. inversion Eg; subst s0' s0''; clear Eg.
    destruct (py_getitem (doctors s0) i) as [doctor|] eqn:Ed; [|discriminate].
    destruct (request (env s0) doctor) as [[env1 doctor1] req] eqn:Er.
    pose proof (request_now _ _ Er) as Hnow.
    assert (Hs0 : queue_at_doctors s0 = queue_at_doctors self
                  /\ env s0 = env self).
    { destruct index as [i'|]; inv_ok; split; reflexivity. }
    destruct Hs0 as [Hq0 He0].
    apply bind_Ok in E. destruct E as (u & s1 & Em & E).
    unfold modify in Em. inversion Em; subst u s1; clear Em.
    rewrite (py_setitem_Some (doctors s0) i doctor1 Ed) in E.
    pose proof (py_getitem_setitem (doctors s0) i doctor1 Ed
                  (py_setitem_Some (doctors s0) i doctor1 Ed)) as Hget.
    destruct (truthy (count doctor1)) eqn:Ec.
    + inv_ok. simpl in *. exists doctor1. rewrite Ec.
      split; [exact Hget|].
      split.
      { rewrite <- Hq0.
        match goal with
        | Hg : py_getitem (queue_at_doctors _) _ = Some _,
          Hs : py_setitem (queue_at_doctors _) _ _ = Some _ |- _ =>
            rewrite Hg; simpl; rewrite (py_getitem_setitem _ _ _ Hg Hs)
        end.
        rewrite Hnow, He0. reflexivity. }
      intros self2 fr' self3 E. unfold visit_doctor_granted in E. simpl in E.
      inv_ok. simpl in *.
      match goal with
      | Hg : py_getitem (queue_at_doctors ?c) _ = Some _,
        Hs : py_setitem (queue_at_doctors ?c) _ _ = Some _ |- _ =>
          rewrite Hg; simpl; rewrite (py_getitem_setitem _ _ _ Hg Hs)
      end.
      reflexivity.
    + inv_ok. simpl in *. exists doctor1. rewrite Ec.
      split; [exact Hget|].
      split.
      { rewrite Hq0. destruct (py_getitem (queue_at_doctors self) i); reflexivity. }
      intros self2 fr' self3 E. unfold visit_doctor_granted in E. simpl in E.
      inv_ok. simpl in *.
      match goal with
      | |- context [py_getitem ?l i] => destruct (py_getitem l i)
      end; reflexivity.
Qed.

Lemma visit_granted_waiting (st : Stage) (fr : Waiting T) (fr' : Serving T)
  (self self' : Polyclinic T Rng) :
  st <> Registry ->
  visit_granted rnd st fr self = Ok fr' self' ->
  s_waiting_time fr' = match w_time fr with
                       | Some time => now (env self) - time
                       | None => of_Z 0
                       end.
Proof.
  intros Hst. destruct st as [| |index]; [contradiction| |]; simpl;
    unfold visit_therapist_granted, visit_doctor_granted; intros E;
    destruct (w_time fr); inv_ok; reflexivity.
Qed.

(** What [visit_request] leaves behind: the resource under the index
    the generator settled on is the one [request] returned, and the
    branch taken is the one the count of that resource selects. *)

Lemma visit_request_shape (st : Stage) (self self1 : Polyclinic T Rng) (fr : Waiting T) :
  visit_request rnd st self = Ok fr self1 ->
  w_index fr = requested_index rnd st self /\
  exists res env1 res1 req,
    stage_resource st (w_index fr) self = Some res /\
    request (env self) res = (env1, res1, req) /\
    w_request fr = req /\
    stage_resource st (w_index fr) self1 = Some res1 /\
    env self1 = env1 /\
    w_time fr = if truthy (count res1) then Some (now (env self)) else None.
Proof.
  destruct st as [| |index]; simpl.
  - unfold visit_registry_request.
    destruct (request (env self) (registry self)) as [[env1 res1] req] eqn:Er.
    pose proof (request_now _ _ Er) as Hnow. simpl.
    destruct (truthy (count res1)) eqn:Ec; intros E; inversion E; subst; clear E;
      (split; [reflexivity|]); exists (registry self), env1, res1, req; simpl;
      rewrite ?Hnow, ?Ec; repeat split; solve [reflexivity | exact Er].
  - unfold visit_therapist_request.
    destruct (request (env self) (therapists self)) as [[env1 res1] req] eqn:Er.
    pose proof (request_now _ _ Er) as Hnow. simpl.
    destruct (truthy (count res1)) eqn:Ec; intros E; inversion E; subst; clear E;
      (split; [reflexivity|]); exists (therapists self), env1, res1, req; simpl;
      rewrite ?Hnow, ?Ec; repeat split; solve [reflexivity | exact Er].
  - unfold visit_doctor_request. intros E.
    apply bind_Ok in E. destruct E as (i & s0 & Ei & E).
    assert (Hs0 : i = requested_index rnd (Doctor index) self
                  /\ doctors s0 = doctors self /\ env s0 = env self).
    { destruct index as [i'|]; inv_ok; repeat split; reflexivity. }
    destruct Hs0 as (Hi & Hd0 & He0). simpl in Hi.
    apply bind_Ok in E. destruct E as (s0' & s0'' & Eg & E).
    unfold get in Eg. inversion Eg; subst s0' s0''; clear Eg.
    destruct (py_getitem (doctors s0) i) as [doctor|] eqn:Ed; [|discriminate].
    destruct (request (env s0) doctor) as [[env1 doctor1] req] eqn:Er.
    pose proof (request_now _ _ Er) as Hnow.
    apply bind_Ok in E. destruct E as (u & s1 & Em & E).
    unfold modify in Em. inversion Em; subst u s1; clear Em.
    rewrite (py_setitem_Some (doctors s0) i doctor1 Ed) in E.
    pose proof (py_getitem_setitem (doctors s0) i doctor1 Ed
                  (py_setitem_Some (doctors s0) i doctor1 Ed)) as Hget.
    rewrite He0 in Er, Hnow. rewrite Hd0 in Ed.
    assert (Hfr : w_index fr = i /\ w_request fr = req /\
                  doctors self1 = match py_norm_index (doctors s0) i with
                                  | Some k => list_set (doctors s0) k doctor1
                                  | None => doctors s0
                                  end /\
                  env self1 = env1 /\
                  w_time fr = if truthy (count doctor1)
                              then Some (now (env self)) else None).
    { destruct (truthy (count doctor1)) eqn:Ec.
      - apply on_raise_Ok in E.
        apply bind_Ok in E. destruct E as (sg & sg' & Eg & E).
        unfold get in Eg. inversion Eg; subst sg sg'; clear Eg.
        apply bind_Ok in E. destruct E as (u & s2 & Eu & E).
        apply queue_at_doctors_update_Ok in Eu. destruct Eu as (sv & l & _ & _ & Hs2).
        unfold ret in E. inversion E; subst fr self1 s2; clear E. simpl.
        rewrite Hnow. repeat split; reflexivity.
      - unfold ret in E. inversion E; subst fr self1; clear E. simpl.
        repeat split; reflexivity. }
    destruct Hfr as (Hwi & Hwr & Hds & Hes & Hwt).
    rewrite Hwi. split; [exact Hi|].
    exists doctor, env1, doctor1, req. simpl. rewrite Hds.
    repeat split; trivial.
Qed.

(** C1 is not what the code does.  The guard [if resource.count:] is
    read after the request has been made, so on every resource with a
    capacity of at least 1 it holds, free slot or not: [visit_therapist]
    and [visit_doctor] always increment the StatisticValue of the stage
    before [yield request], always decrement it on resumption and
    always take the waiting time from the clock.  The branch
    [else: yield request; waiting_time = 0] is never taken. *)

Theorem queue_counted_on_every_request (st : Stage)
  (self self1 : Polyclinic T Rng) (fr : Waiting T) (res : Resource) :
  st <> Registry ->
  stage_resource st (requested_index rnd st self) self = Some res ->
  (1 <= capacity res)%Z ->
  visit_request rnd st self = Ok fr self1 ->
  w_time fr = Some (now (env self)) /\
  stage_statistic st (w_index fr) self1
  = option_map (__iadd__ (now (env self)) 1) (stage_statistic st (w_index fr) self) /\
  forall self2 fr' self3,
    visit_granted rnd st fr self2 = Ok fr' self3 ->
    s_waiting_time fr' = now (env self2) - now (env self) /\
    stage_statistic st (w_index fr) self3
    = option_map (__isub__ (now (env self2)) 1) (stage_statistic st (w_index fr) self2).
Proof.
  intros Hst Hres Hcap E.
  destruct (visit_request_shape st self E)
    as (Hi & res0 & env1 & res1 & req & Hres0 & Er & _ & Hres1 & _ & Hw).
  rewrite Hi, Hres in Hres0. inversion Hres0; subst res0; clear Hres0.
  pose proof (request_count_positive _ _ Hcap Er) as Hc.
  rewrite Hc in Hw.
  destruct (guard_brackets_the_wait st self E) as (res' & Hres' & Hadd & Hsub).
  rewrite Hres1 in Hres'. inversion Hres'; subst res'; clear Hres'.
  rewrite Hc in Hadd.
  split; [exact Hw|]. split; [exact Hadd|].
  intros self2 fr' self3 E'.
  split.
  - rewrite (@visit_granted_waiting st _ _ _ _ Hst E'), Hw. reflexivity.
  - rewrite (Hsub _ _ _ E'), Hc. reflexivity.
Qed.

(** *** The record of a visit *)

Lemma on_polyclinic_Ok {P A} (c : M T (Polyclinic T Rng) A)
  (self : Polyclinic T Rng) (p : P) (a : A) (s' : Polyclinic T Rng * P) :
  on_polyclinic c (self, p) = Ok a s' ->
  exists self', c self = Ok a self' /\ s' = (self', p).
Proof.
  unfold on_polyclinic. destruct (c self) as [a' self'| |]; try discriminate.
  intros E. inversion E; subst. exists self'. auto.
Qed.

Lemma visit_served_records (st : Stage) (fr : Serving T)
  (self self' : Polyclinic T Rng) (p p' : Patient T) :
  st <> Registry ->
  visit_served st fr (self, p) = Ok tt (self', p') ->
  visits p' = visits p ++ [ {| type := "therapist";
                               waiting_time :=
                                 if s_waiting_time fr <? of_Z 1 then of_Z 0
                                 else s_waiting_time fr;
                               service_time :=
                                 if now (env self) - s_time fr <? of_Z 1 then of_Z 0
                                 else now (env self) - s_time fr |} ]
  /\ exit p' = exit p.
Proof.
  intros Hst. destruct st as [| |index]; [contradiction| |]; simpl;
    unfold visit_therapist_served, visit_doctor_served, finally, bind,
      on_polyclinic, on_patient, get, add_visit, modify; simpl;
    intros E; inversion E; subst; split; reflexivity.
Qed.

Lemma visit_request_immediate (st : Stage) (self self1 : Polyclinic T Rng)
  (res : Resource) (fr : Waiting T) :
  stage_resource st (requested_index rnd st self) self = Some res ->
  free_slot res = true -> put_queue res = [] ->
  visit_request rnd st self = Ok fr self1 ->
  exists e, triggered (w_request fr) = Some e /\
            at_time e = now (env self) + of_Z 0 /\
            w_time fr = Some (now (env self)).
Proof.
  intros Hres Hfree Hq.
  assert (Himm : forall env0,
    exists env1 res1 req e,
      request env0 res = (env1, res1, req) /\ triggered req = Some e /\
      at_time e = now env0 + of_Z 0 /\ truthy (count res1) = true).
  { intros env0.
    destruct (request_immediate env0 res Hfree Hq) as (env1 & res1 & req & e & Er & Ht & Ha & Hc).
    exists env1, res1, req, e. repeat split; trivial.
    unfold truthy. rewrite Hc. reflexivity. }
  destruct st as [| |index]; simpl in *.
  - inversion Hres; subst res; clear Hres. unfold visit_registry_request.
    destruct (Himm (env self)) as (env1 & res1 & req & e & Er & Ht & Ha & Hc).
    rewrite Er. simpl. rewrite Hc. intros E. inversion E; subst. simpl.
    exists e. rewrite (request_now _ _ Er). auto.
  - inversion Hres; subst res; clear Hres. unfold visit_therapist_request.
    destruct (Himm (env self)) as (env1 & res1 & req & e & Er & Ht & Ha & Hc).
    rewrite Er. simpl. rewrite Hc. intros E. inversion E; subst. simpl.
    exists e. rewrite (request_now _ _ Er). auto.
  - unfold visit_doctor_request. intros E.
    apply bind_Ok in E. destruct E as (i & s0 & Ei & E).
    assert (Hs0 : i = requested_index rnd (Doctor index) self
                  /\ doctors s0 = doctors self /\ env s0 = env self).
    { destruct index as [i'|]; inv_ok; repeat split; reflexivity. }
    destruct Hs0 as (Hi & Hd0 & He0). simpl in Hi. rewrite <- Hi in Hres.
    apply bind_Ok in E. destruct E as (s0' & s0'' & Eg & E).
    unfold get in Eg. inversion Eg; subst s0' s0''; clear Eg.
    rewrite <- Hd0 in Hres. rewrite Hres in E.
    destruct (Himm (env s0)) as (env1 & res1 & req & e & Er & Ht & Ha & Hc).
    rewrite Er in E. rewrite Hc in E.
    apply bind_Ok in E. destruct E as (u & s1 & Em & E).
    unfold modify in Em. inversion Em; subst u s1; clear Em.
    rewrite (py_setitem_Some (doctors s0) i res1 Hres) in E.
    inv_ok. simpl.
    exists e. rewrite (request_now _ _ Er), <- He0. auto.
Qed.

Lemma visit_Ok (st : Stage) (others : Others)
  (self self' : Polyclinic T Rng) (p p' : Patient T) :
  visit rnd st others (self, p) = Ok tt (self', p') ->
  exists fr self1 fr' self3,
    visit_request rnd st self = Ok fr self1 /\
    visit_granted rnd st fr (resume (grant_entry others fr) (while_waiting others self1))
    = Ok fr' self3 /\
    visit_served st fr' (resume (s_timeout fr') (while_served others self3), p)
    = Ok tt (self', p').
Proof.
  unfold visit. intros E.
  apply bind_Ok in E. destruct E as (fr & [s1 p1] & E1 & E).
  apply on_polyclinic_Ok in E1. destruct E1 as (self1 & E1 & Hp1).
  inversion Hp1; subst s1 p1; clear Hp1.
  apply bind_Ok in E. destruct E as (u & [s2 p2] & E2 & E).
  apply on_polyclinic_Ok in E2. destruct E2 as (self2 & E2 & Hp2).
  inversion Hp2; subst s2 p2; clear Hp2.
  unfold modify in E2. inversion E2; subst u self2; clear E2.
  apply bind_Ok in E. destruct E as (fr' & [s3 p3] & E3 & E).
  apply on_polyclinic_Ok in E3. destruct E3 as (self3 & E3 & Hp3).
  inversion Hp3; subst s3 p3; clear Hp3.
  apply bind_Ok in E. destruct E as (u & [s4 p4] & E4 & E).
  apply on_polyclinic_Ok in E4. destruct E4 as (self4 & E4 & Hp4).
  inversion Hp4; subst s4 p4; clear Hp4.
  unfold modify in E4. inversion E4; subst u self4; clear E4.
  exists fr, self1, fr', self3. auto.
Qed.

(** C4. When the resource a therapist or specialist visit requests has
    a free slot and nobody in its wait queue, the visit, if it records,
    records a waiting time of exactly 0: the request is triggered at
    once and the generator resumes with the clock where it was. *)

Theorem immediate_grant_records_zero (st : Stage) (others : Others)
  (self self' : Polyclinic T Rng) (p p' : Patient T) (res : Resource) :
  st <> Registry ->
  stage_resource st (requested_index rnd st self) self = Some res ->
  free_slot res = true -> put_queue res = [] ->
  visit rnd st others (self, p) = Ok tt (self', p') ->
  exists rec, visits p' = visits p ++ [rec] /\ waiting_time rec = of_Z 0.
Proof.
  intros Hst Hres Hfree Hq E.
  destruct (@visit_Ok _ _ _ _ _ _ E) as (fr & self1 & fr' & self3 & E1 & E3 & E4).
  destruct (@visit_request_immediate st _ _ _ _ Hres Hfree Hq E1) as (e & Ht & Ha & Hw).
  pose proof (@visit_granted_waiting st _ _ _ _ Hst E3) as Hwait.
  destruct (@visit_served_records st _ _ _ _ _ Hst E4) as [Hrec _].
  eexists. split; [exact Hrec|]. simpl.
  rewrite Hwait, Hw. unfold grant_entry. rewrite Ht. simpl. rewrite Ha.
  rewrite (nlt_compat_l _ _ (of_Z 1)
             (nsub_compat_l _ _ (now (env self)) (nadd_0_r (now (env self))))).
  rewrite nsub_diag. reflexivity.
Qed.

(** C2 is not what the code does: the record [visit_doctor] appends is
    tagged ['therapist'], the tag of [visit_therapist], never
    ['doctor']. *)

Theorem visit_doctor_records_therapist (others : Others) (index : option Z)
  (self self' : Polyclinic T Rng) (p p' : Patient T) :
  visit_doctor rnd others index (self, p) = Ok tt (self', p') ->
  exists rec, visits p' = visits p ++ [rec] /\
              type rec = "therapist"%string /\ type rec <> "doctor"%string.
Proof.
  unfold visit_doctor. intros E.
  destruct (@visit_Ok _ _ _ _ _ _ E) as (fr & self1 & fr' & self3 & E1 & E3 & E4).
  assert (Hst : Doctor index <> Registry) by discriminate.
  destruct (@visit_served_records (Doctor index) _ _ _ _ _ Hst E4) as [Hrec _].
  eexists. split; [exact Hrec|]. simpl. split; [reflexivity | discriminate].
Qed.

(** *** Leaving *)

Lemma visit_exit (st : Stage) (others : Others)
  (self self' : Polyclinic T Rng) (p p' : Patient T) :
  visit rnd st others (self, p) = Ok tt (self', p') -> exit p' = exit p.
Proof.
  intros E.
  destruct (@visit_Ok _ _ _ _ _ _ E) as (fr & self1 & fr' & self3 & E1 & E3 & E4).
  destruct st as [| |index].
  - simpl in E4. inversion E4. reflexivity.
  - assert (Hst : Therapist <> Registry) by discriminate.
    exact (proj2 (@visit_served_records Therapist _ _ _ _ _ Hst E4)).
  - assert (Hst : Doctor index <> Registry) by discriminate.
    exact (proj2 (@visit_served_records (Doctor index) _ _ _ _ _ Hst E4)).
Qed.

(** C8. When the flow of a patient completes, the patient's [exit] is
    the time the clock shows at that moment; it is no longer unset. *)

Theorem patient_flow_sets_exit (at_registry : Others) (at_therapist : option Others)
  (at_specialists : list (option Z * Others))
  (self self' : Polyclinic T Rng) (p p' : Patient T) :
  patient_flow rnd at_registry at_therapist at_specialists (self, p)
  = Ok tt (self', p') ->
  exit p' = Some (now (env self')) /\ exit p' <> None.
Proof.
  unfold patient_flow. intros E.
  repeat (apply bind_Ok in E; destruct E as (? & [? ?] & ? & E)).
  unfold departed in E. inversion E; subst. simpl.
  split; [reflexivity | discriminate].
Qed.

(** *** A negative delay *)

(** [visit_doctor] hands what [doctor_process_time] returns to
    [env.timeout] as it is: a negative sample is a negative delay. *)

Lemma visit_doctor_granted_negative_delay (fr : Waiting T) (self : Polyclinic T Rng)
  (d : T) (g : Rng) :
  normalvariate rnd (of_Z 900) (of_Z 150) (r self) = Some (d, g) ->
  (d <? of_Z 0) = true ->
  py_getitem (queue_at_doctors self) (w_index fr) <> None ->
  exists self', visit_doctor_granted rnd fr self = Raise (NegativeDelay d) self'.
Proof.
  intros Hn Hd Hq.
  destruct (py_getitem (queue_at_doctors self) (w_index fr)) as [sv|] eqn:Eg;
    [clear Hq | contradiction].
  unfold visit_doctor_granted, on_raise, bind, get, ret, queue_at_doctors_update,
    doctor_process_time, env_timeout, timeout.
  destruct (w_time fr) as [time|]; simpl.
  - rewrite Eg.
    rewrite (py_setitem_Some _ _ (__isub__ (now (env self)) 1 sv) Eg). simpl.
    rewrite Hn. simpl. rewrite Hd. eexists. reflexivity.
  - rewrite Hn. simpl. rewrite Hd. eexists. reflexivity.
Qed.

End PolyclinicFacts.

(** ** The normal sampler *)

Section NormalSampler.
Local Open Scope R_scope.

Lemma exp_1_bounds : 2 < exp 1 <= 3.
Proof.
  split; [|exact exp_le_3].
  pose proof (exp_ineq1 1). lra.
Qed.

Lemma NV_MAGICCONST_sqr : NV_MAGICCONST * NV_MAGICCONST = 8 / exp 1.
Proof.
  unfold NV_MAGICCONST.
  assert (Hs : sqrt 2 * sqrt 2 = 2) by (apply sqrt_sqrt; lra).
  assert (Hs0 : 0 < sqrt 2) by (apply sqrt_lt_R0; lra).
  assert (He : exp (- (1 / 2)) * exp (- (1 / 2)) = / exp 1).
  { rewrite <- exp_plus, <- exp_Ropp. f_equal. lra. }
  pose proof (exp_pos 1) as Hp.
  replace (4 * exp (- (1 / 2)) / sqrt 2 * (4 * exp (- (1 / 2)) / sqrt 2))
    with (16 * (exp (- (1 / 2)) * exp (- (1 / 2))) / (sqrt 2 * sqrt 2))
    by (field; lra).
  rewrite He, Hs. field. lra.
Qed.

Lemma NV_MAGICCONST_pos : 0 < NV_MAGICCONST.
Proof.
  unfold NV_MAGICCONST.
  assert (Hs0 : 0 < sqrt 2) by (apply sqrt_lt_R0; lra).
  pose proof (exp_pos (- (1 / 2))).
  apply Rdiv_lt_0_compat; lra.
Qed.

Lemma NV_MAGICCONST_bounds :
  3 / 2 < NV_MAGICCONST /\ NV_MAGICCONST * NV_MAGICCONST < 4.
Proof.
  pose proof NV_MAGICCONST_sqr as Hsq. pose proof NV_MAGICCONST_pos as Hp.
  pose proof exp_1_bounds as [He1 He2].
  assert (H1 : 8 / 3 <= 8 / exp 1).
  { unfold Rdiv. apply Rmult_le_compat_l; [lra|].
    apply Rinv_le_contravar; lra. }
  assert (H2 : 8 / exp 1 < 4).
  { apply (Rmult_lt_reg_r (exp 1)); [lra|].
    unfold Rdiv. rewrite Rmult_assoc, Rinv_l by lra. lra. }
  split; nra.
Qed.

Lemma exp_16_bound : exp 16 <= 43046721.
Proof.
  pose proof exp_1_bounds as [_ H1]. pose proof (exp_pos 1) as P1.
  assert (E2 : exp 2 = exp 1 * exp 1) by (rewrite <- exp_plus; f_equal; lra).
  assert (E4 : exp 4 = exp 2 * exp 2) by (rewrite <- exp_plus; f_equal; lra).
  assert (E8 : exp 8 = exp 4 * exp 4) by (rewrite <- exp_plus; f_equal; lra).
  assert (E16 : exp 16 = exp 8 * exp 8) by (rewrite <- exp_plus; f_equal; lra).
  pose proof (exp_pos 2) as P2. pose proof (exp_pos 4) as P4.
  pose proof (exp_pos 8) as P8.
  assert (H2 : exp 2 <= 9) by nra.
  assert (H4 : exp 4 <= 81) by nra.
  assert (H8 : exp 8 <= 6561) by nra.
  nra.
Qed.

(** The logarithm of [2**-40] is below -16. *)

Lemma ln_small : ln (1 - 9007199254732800 / two_53) < - (16).
Proof.
  unfold two_53.
  rewrite <- (ln_exp (- (16))). apply ln_increasing; [lra|].
  rewrite exp_Ropp.
  pose proof exp_16_bound as Hb. pose proof (exp_pos 16) as Hp.
  apply Rlt_le_trans with (/ 43046721); [lra|].
  apply Rinv_le_contravar; lra.
Qed.

(** On [unlucky] the first round of the loop accepts, and the sample
    is [900 - 600 * NV_MAGICCONST]. *)

Lemma R_normalvariate_unlucky (fuel : nat) :
  R_normalvariate (S fuel) 900 150 unlucky
  = Some (900 - 600 * NV_MAGICCONST, fun n => unlucky (S (S n))).
Proof.
  cbn [R_normalvariate R_random unlucky fst snd].
  pose proof NV_MAGICCONST_bounds as [Hlo Hhi]. pose proof ln_small as Hln.
  assert (Hz : NV_MAGICCONST * (4503599627337728 / two_53 - 1 / 2)
               / (1 - 9007199254732800 / two_53) = - 4 * NV_MAGICCONST).
  { unfold two_53. field. }
  rewrite Hz.
  destruct (Rle_dec (- 4 * NV_MAGICCONST * (- 4 * NV_MAGICCONST) / 4)
                    (- ln (1 - 9007199254732800 / two_53))) as [Hacc|Hrej].
  - f_equal. f_equal. lra.
  - exfalso. apply Hrej. nra.
Qed.

Lemma unlucky_is_random (n : nat) :
  exists k : Z, (0 <= k < 2 ^ 53)%Z /\ unlucky n = IZR k / two_53.
Proof.
  destruct n as [|n]; simpl.
  - exists 4503599627337728%Z. split; [lia | reflexivity].
  - exists 9007199254732800%Z. split; [lia | reflexivity].
Qed.

(** C10. [doctor_process_time] is the sample of [normalvariate(900,
    150)] as it comes.  There is a state of the random stream, made of
    values [random()] can return, on which the sample is negative; a
    [visit_doctor] that draws its service time in that state requests
    the timeout with this negative delay, which the environment
    refuses. *)

Theorem doctor_process_time_negative :
  exists (s : RandomState) (d : R),
    (forall n, exists k : Z, (0 <= k < 2 ^ 53)%Z /\ s n = IZR k / two_53) /\
    d < 0 /\
    forall (fuel : nat) (self : Polyclinic R RandomState),
      doctor_process_time (CPythonRandom (S fuel)) (set_r s self)
      = Ok d (set_r (fun n => s (S (S n))) self) /\
      R_normalvariate (S fuel) 900 150 s = Some (d, fun n => s (S (S n))) /\
      forall fr : Waiting R,
        py_getitem (queue_at_doctors self) (w_index fr) <> None ->
        exists self',
          visit_doctor_granted (CPythonRandom (S fuel)) fr (set_r s self)
          = Raise (NegativeDelay d) self'.
Proof.
  exists unlucky, (900 - 600 * NV_MAGICCONST).
  split; [exact unlucky_is_random|].
  pose proof NV_MAGICCONST_bounds as [Hlo _].
  split; [lra|].
  intros fuel self.
  pose proof (R_normalvariate_unlucky fuel) as Hn.
  split; [|split].
  - unfold doctor_process_time.
    cbn [normalvariate CPythonRandom r set_r of_Z R_PyNumber].
    change (15 * 60)%Z with 900%Z. rewrite Hn. reflexivity.
  - exact Hn.
  - intros fr Hq.
    destruct (@visit_doctor_granted_negative_delay R _ _ (CPythonRandom (S fuel))
                fr (set_r unlucky self) (900 - 600 * NV_MAGICCONST)
                (fun n => unlucky (S (S n)))) as (self' & E).
    + exact Hn.
    + apply Rltb_lt. change (900 - 600 * NV_MAGICCONST < 0). lra.
    + exact Hq.
    + exists self'. exact E.
Qed.

Lemma doctor_process_time_negative_witness :
  exists (s : RandomState) (d : R) (self' : Polyclinic R RandomState),
    d < 0 /\
    visit_doctor_granted (CPythonRandom 1) granted_specialist
      (set_r s unlucky_polyclinic)
    = Raise (NegativeDelay d) self'.
Proof.
  destruct doctor_process_time_negative as (s & d & _ & Hd & Hall).
  destruct (Hall 0%nat unlucky_polyclinic) as (_ & _ & Hv).
  assert (Hq : py_getitem (queue_at_doctors unlucky_polyclinic)
                          (w_index granted_specialist) <> None) by discriminate.
  destruct (Hv granted_specialist Hq) as (self' & E).
  exists s, d, self'. split; [exact Hd | exact E].
Defined.

End NormalSampler.

(** ** Runs of a new polyclinic with one patient *)

(** The first patient of a new polyclinic asks for a therapist: all
    eight slots are free and nobody waits, and the queue is counted. *)

Lemma queue_counted_on_every_request_witness :
  count (therapists fresh_polyclinic) = 0%nat /\
  free_slot (therapists fresh_polyclinic) = true /\
  exists fr self1,
    visit_request least_random Therapist fresh_polyclinic = Ok fr self1 /\
    w_time fr = Some 0%Q /\
    queue_at_therapist self1 = __iadd__ 0%Q 1 StatisticValue__init__.
Proof.
  split; [reflexivity|]. split; [reflexivity|].
  assert (Hst : Therapist <> Registry) by discriminate.
  assert (Hcap : (1 <= capacity (therapists fresh_polyclinic))%Z)
    by (vm_compute; discriminate).
  destruct (@queue_counted_on_every_request Q _ nat least_random Therapist
              fresh_polyclinic _ _ (therapists fresh_polyclinic)
              Hst eq_refl Hcap eq_refl) as (Hw & Hstat & _).
  do 2 eexists. split; [reflexivity|]. split; [exact Hw|].
  simpl in Hstat. inversion Hstat. reflexivity.
Defined.

(** The same for a second patient: one therapist slot of eight is in
    use and nobody waits when the request is made, a slot is free, and
    the StatisticValue is incremented all the same. *)

Lemma queue_counted_with_free_slots :
  ~ (free_slot (therapists one_with_therapist) = true ->
     forall fr self1,
       visit_request least_random Therapist one_with_therapist = Ok fr self1 ->
       queue_at_therapist self1 = queue_at_therapist one_with_therapist).
Proof.
  intros Hclaim. specialize (Hclaim eq_refl _ _ eq_refl). discriminate Hclaim.
Qed.

Example second_request_is_counted :
  (count (therapists one_with_therapist),
   capacity (therapists one_with_therapist),
   put_queue (therapists one_with_therapist),
   value (queue_at_therapist one_with_therapist),
   match visit_request least_random Therapist one_with_therapist with
   | Ok fr self1 =>
       Some (match triggered (w_request fr) with Some _ => true | None => false end,
             count (therapists self1), value (queue_at_therapist self1))
   | _ => None
   end)
  = (1%nat, 8%Z, [], 0%Z, Some (true, 2%nat, 1%Z)).
Proof. reflexivity. Qed.

(** After the whole visit the queue is back to 0 but its maximum shows
    the patient, who never waited. *)

Example queue_after_visit_therapist :
  match visit_therapist least_random alone (fresh_polyclinic, first_patient) with
  | Ok _ (self, p) =>
      Some (count (therapists fresh_polyclinic), capacity (therapists fresh_polyclinic),
            value (queue_at_therapist self), max_value (queue_at_therapist self),
            history (queue_at_therapist self), visits p)
  | _ => None
  end = Some (0%nat, 8%Z, 0%Z, 1%Z, [(0%Q, 0%Z)],
              [ {| type := "therapist"; waiting_time := 0%Q; service_time := 300%Q |} ]).
Proof. reflexivity. Qed.

Lemma immediate_grant_records_zero_witness :
  exists self' p' rec,
    visit least_random (Doctor (Some (-1)%Z)) alone (fresh_polyclinic, first_patient)
    = Ok tt (self', p') /\
    visits p' = [rec] /\ waiting_time rec = 0%Q.
Proof.
  assert (Hst : Doctor (Some (-1)%Z) <> Registry) by discriminate.
  destruct (visit least_random (Doctor (Some (-1)%Z)) alone
              (fresh_polyclinic, first_patient)) as [[] [self' p']|e s|] eqn:E;
    [|vm_compute in E; discriminate E|vm_compute in E; discriminate E].
  destruct (@immediate_grant_records_zero Q _ nat least_random (Doctor (Some (-1)%Z))
              alone fresh_polyclinic self' first_patient p'
              {| capacity := 1; users := []; put_queue := [] |}
              Hst eq_refl eq_refl eq_refl E) as (rec & Hv & Hw).
  exists self', p', rec. split; [reflexivity|]. split; [exact Hv | exact Hw].
Defined.

Lemma visit_doctor_records_therapist_witness :
  exists self' p' rec,
    visit_doctor least_random alone (Some 3%Z) (fresh_polyclinic, first_patient)
    = Ok tt (self', p') /\
    visits p' = [rec] /\ type rec = "therapist"%string.
Proof.
  destruct (visit_doctor least_random alone (Some 3%Z)
              (fresh_polyclinic, first_patient)) as [[] [self' p']|e s|] eqn:E;
    [|vm_compute in E; discriminate E|vm_compute in E; discriminate E].
  destruct (@visit_doctor_records_therapist Q _ nat least_random alone (Some 3%Z)
              fresh_polyclinic self' first_patient p' E) as (rec & Hv & Ht & _).
  exists self', p', rec. split; [reflexivity|]. split; [exact Hv | exact Ht].
Defined.

Lemma patient_flow_sets_exit_witness :
  exists self' p',
    patient_flow least_random alone (Some alone) [(Some 2%Z, alone); (None, alone)]
                 (fresh_polyclinic, first_patient)
    = Ok tt (self', p') /\
    exit p' = Some (now (env self')) /\ now (env self') = 2100%Q.
Proof.
  destruct (patient_flow least_random alone (Some alone)
              [(Some 2%Z, alone); (None, alone)]
              (fresh_polyclinic, first_patient)) as [[] [self' p']|e s|] eqn:E;
    [|vm_compute in E; discriminate E|vm_compute in E; discriminate E].
  destruct (@patient_flow_sets_exit Q _ nat least_random alone (Some alone)
              [(Some 2%Z, alone); (None, alone)]
              fresh_polyclinic self' first_patient p' E) as [He _].
  exists self', p'. split; [reflexivity|]. split; [exact He|].
  vm_compute in E. inversion E. reflexivity.
Defined.

(** * More properties of the code *)

(** ** StatisticValue: value, maximum, history *)

Section StatisticValueMore.
Context {T : Type} `{PyNumber T}.
Local Open Scope py_scope.

Lemma value_run (ms : list (Mutation T)) (self : StatisticValue T) :
  value (mutations ms self) = (value self + net_change ms)%Z.
Proof.
  revert self. induction ms as [|m ms IH]; intros self; simpl.
  - unfold value. lia.
  - rewrite IH. destruct m; unfold value; simpl; lia.
Qed.

(** X1. The value of a StatisticValue is the sum of the increments made
    on it less the sum of the decrements, whatever the times. *)

Theorem value_is_net_change (ms : list (Mutation T)) :
  value (mutations ms StatisticValue__init__) = net_change ms.
Proof. rewrite value_run. reflexivity. Qed.

(** X2. [max_value] never decreases, whatever the mutations and their
    deltas. *)

Theorem max_value_never_decreases (ms : list (Mutation T)) (self : StatisticValue T) :
  (max_value self <= max_value (mutations ms self))%Z.
Proof.
  revert self. induction ms as [|m ms IH]; intros self; simpl.
  - lia.
  - specialize (IH (mutate self m)).
    assert (max_value self <= max_value (mutate self m))%Z
      by (destruct m; unfold max_value, value; simpl; lia).
    lia.
Qed.

Lemma insert_by_key_perm (x : T * Z) (l : list (T * Z)) :
  Permutation (insert_by_key x l) (x :: l).
Proof.
  induction l as [|y l IH]; simpl.
  - apply Permutation_refl.
  - destruct (fst y <? fst x).
    + eapply Permutation_trans; [apply perm_skip; exact IH | apply perm_swap].
    + apply Permutation_refl.
Qed.

Lemma sorted_by_key_perm (l : list (T * Z)) : Permutation (sorted_by_key l) l.
Proof.
  unfold sorted_by_key. induction l as [|x l IH]; simpl.
  - apply Permutation_refl.
  - eapply Permutation_trans; [apply insert_by_key_perm|].
    apply perm_skip. exact IH.
Qed.

(** X3. [history] holds the items of the dict, all of them and nothing
    more: sorting loses and invents no entry. *)

Theorem history_is_the_dict (self : StatisticValue T) :
  Permutation (history self) (_history self).
Proof. apply sorted_by_key_perm. Qed.

Lemma nlt_irrefl (x : T) : (x <? x) = false.
Proof.
  destruct (x <? x) eqn:E; [|reflexivity].
  apply nlt_neq in E. rewrite neq_refl in E. discriminate.
Qed.

Lemma history_keys (ms : list (Mutation T)) (self : StatisticValue T) (k : T) (v : Z) :
  In (k, v) (_history (mutations ms self)) ->
  (exists v', In (k, v') (_history self)) \/
  (exists m, In m ms /\ mutation_time m = k).
Proof.
  revert self. induction ms as [|m ms IH]; intros self; simpl.
  - intros Hin. left. exists v. exact Hin.
  - intros Hin. destruct (IH _ Hin) as [[v' Hv]|[m' [Hm Ht]]].
    + rewrite mutate_history in Hv.
      assert (Hs : forall d, In (k, v') (dict_setitem (mutation_time m)
                                           (value (mutate self m)) d) ->
                             (exists v'', In (k, v'') d) \/ mutation_time m = k).
      { induction d as [|[k0 v0] d IHd]; simpl.
        - intros [E|[]]. inversion E. right. reflexivity.
        - destruct (k0 =? mutation_time m).
          + intros [E|Hd].
            * inversion E; subst. left. exists v0. left. reflexivity.
            * left. exists v'. right. exact Hd.
          + intros [E|Hd].
            * inversion E; subst. left. exists v'. left. reflexivity.
            * destruct (IHd Hd) as [[v'' Hv'']|Ht]; [|right; exact Ht].
              left. exists v''. right. exact Hv''. }
      destruct (Hs _ Hv) as [Hold|Ht].
      * left. exact Hold.
      * right. exists m. split; [left; reflexivity | exact Ht].
    + right. exists m'. split; [right; exact Hm | exact Ht].
Qed.

Lemma sorted_greatest_key_last (l : list (T * Z)) (t : T) (v : Z) :
  StronglySorted key_lt l ->
  dict_get t l = Some v ->
  (forall k' v', In (k', v') l -> (t <? k') = false) ->
  exists pre k, l = pre ++ [(k, v)] /\ (k =? t) = true.
Proof.
  induction 1 as [|[k0 v0] l Hs IH Hall]; simpl.
  - discriminate.
  - intros Hget Hmax. destruct (k0 =? t) eqn:E.
    + inversion Hget; subst v0. destruct l as [|[k1 v1] l].
      * exists [], k0. split; [reflexivity | exact E].
      * exfalso. inversion Hall as [|? ? Hlt _]; subst. unfold key_lt in Hlt.
        simpl in Hlt. rewrite (nlt_compat_l _ _ k1 E) in Hlt.
        rewrite (Hmax k1 v1) in Hlt; [discriminate | right; left; reflexivity].
    + destruct (IH Hget) as (pre & k & El & Ek).
      { intros k' v' Hin. apply (Hmax k' v'). right. exact Hin. }
      exists ((k0, v0) :: pre), k. split; [rewrite El; reflexivity | exact Ek].
Qed.

(** X4. When the clock never goes back between the mutations, the last
    entry of [history] is the time of the last mutation with the
    current value. *)

Theorem history_ends_with_value (ms : list (Mutation T)) (m : Mutation T) :
  clock_never_back (ms ++ [m]) ->
  let self := mutations (ms ++ [m]) StatisticValue__init__ in
  exists pre k,
    history self = pre ++ [(k, value self)] /\ (k =? mutation_time m) = true.
Proof.
  intros Hclock self.
  assert (Hself : self = mutate (mutations ms StatisticValue__init__) m).
  { unfold self, mutations. rewrite fold_left_app. reflexivity. }
  apply sorted_greatest_key_last.
  - apply sorted_by_key_sorted. apply mutations_ok. constructor.
  - unfold history. rewrite dict_get_sorted, Hself, mutate_history, dict_get_setitem.
    rewrite neq_refl. reflexivity.
  - intros k' v' Hin.
    apply (Permutation_in _ (sorted_by_key_perm (_history self))) in Hin.
    destruct (history_keys _ _ _ _ Hin) as [[v'' []]|[m' [Hm' Ht]]].
    subst k'. apply in_app_or in Hm'. destruct Hm' as [Hm'|[->|[]]].
    + unfold clock_never_back in Hclock.
      clear - Hclock Hm'. induction ms as [|a ms IH]; simpl in *; [contradiction|].
      inversion Hclock as [|? ? Hs Hall]; subst.
      destruct Hm' as [->|Hm'].
      * rewrite Forall_forall in Hall. apply Hall. apply in_or_app. right. left. reflexivity.
      * apply IH; assumption.
    + apply nlt_irrefl.
Qed.

End StatisticValueMore.

Lemma history_ends_with_value_witness :
  exists pre k,
    history (mutations ([Iadd 1%Q 1; Iadd (3 # 2) 1; Isub (3 # 2) 1] ++ [Isub 4%Q 1])
                       StatisticValue__init__)
    = pre ++ [(k, 0%Z)] /\ Qeq_bool k 4 = true.
Proof.
  assert (Hclock : clock_never_back
                     ([Iadd 1%Q 1; Iadd (3 # 2) 1; Isub (3 # 2) 1] ++ [Isub 4%Q 1])).
  { unfold clock_never_back. simpl.
    repeat (constructor; [|repeat (constructor; try reflexivity)]); constructor. }
  destruct (@history_ends_with_value Q _
              [Iadd 1%Q 1; Iadd (3 # 2) 1; Isub (3 # 2) 1] (Isub 4%Q 1) Hclock)
    as (pre & k & E & Ek).
  exists pre, k. split; [exact E | exact Ek].
Defined.

(** ** Patient: the list of visits *)

Section PatientMore.
Context {T : Type} `{PyNumber T}.
Local Open Scope py_scope.

Lemma add_visit_final (type_ : string) (w s : T) (self self' : Patient T) :
  final (add_visit type_ w s self) = Some self' ->
  index self' = index self /\ enter self' = enter self /\ exit self' = exit self /\
  exists added, visits self' = visits self ++ added /\
                (List.length added <= 1)%nat /\ Forall record_ok added.
Proof.
  unfold add_visit. destruct (recognized type_) eqn:Hr; simpl.
  - intros E. inversion E; subst. simpl. repeat split.
    eexists. split; [reflexivity|]. split; [simpl; lia|].
    constructor; [|constructor]. unfold record_ok, floored. simpl.
    split; [exact Hr|].
    split; [destruct (w <? of_Z 1) eqn:E1 | destruct (s <? of_Z 1) eqn:E2]; auto.
  - intros E. inversion E; subst. repeat split.
    exists []. rewrite app_nil_r. split; [reflexivity|]. split; [simpl; lia | constructor].
Qed.

(** X5. However [add_visit] is called, and whether a call raises or
    not, a patient's index, enter and exit stay as they are, the visits
    recorded before stay in place, at most one record per call is
    appended after them, and every record appended has a recognized type
    and durations that are exactly 0 or not below 1. *)

Theorem add_visits_only_appends (calls : list (string * T * T)) (self self' : Patient T) :
  final (add_visits calls self) = Some self' ->
  index self' = index self /\ enter self' = enter self /\ exit self' = exit self /\
  exists added, visits self' = visits self ++ added /\
                (List.length added <= List.length calls)%nat /\ Forall record_ok added.
Proof.
  revert self. induction calls as [|[[type_ w] s] calls IH]; intros self; simpl.
  - intros E. inversion E; subst. repeat split.
    exists []. rewrite app_nil_r. split; [reflexivity|]. split; [simpl; lia | constructor].
  - unfold bind. destruct (add_visit type_ w s self) as [u s1|e s1|] eqn:E1; simpl.
    + intros E.
      assert (F1 : final (add_visit type_ w s self) = Some s1) by (rewrite E1; reflexivity).
      destruct (add_visit_final _ _ _ _ F1) as (Hi & He & Hx & a1 & Hv1 & Hl1 & Hr1).
      destruct (IH _ E) as (Hi' & He' & Hx' & a2 & Hv2 & Hl2 & Hr2).
      repeat split; try congruence.
      exists (a1 ++ a2). rewrite Hv2, Hv1, app_assoc.
      split; [reflexivity|]. split; [rewrite length_app; lia|].
      apply Forall_app. split; assumption.
    + intros E. inversion E; subst s1.
      assert (F1 : final (add_visit type_ w s self) = Some self') by (rewrite E1; reflexivity).
      destruct (add_visit_final _ _ _ _ F1) as (Hi & He & Hx & a1 & Hv1 & Hl1 & Hr1).
      repeat split; try assumption.
      exists a1. split; [exact Hv1|]. split; [lia | exact Hr1].
    + discriminate.
Qed.

End PatientMore.

Lemma add_visits_only_appends_witness :
  exists self',
    final (add_visits [("therapist"%string, (1 # 3)%Q, 600%Q);
                       ("nurse"%string, 5%Q, 5%Q);
                       ("doctor"%string, 7%Q, 7%Q)] first_patient) = Some self' /\
    List.length (visits self') = 1%nat.
Proof.
  eexists. split; [reflexivity|].
  destruct (@add_visits_only_appends Q _
              [("therapist"%string, (1 # 3)%Q, 600%Q);
               ("nurse"%string, 5%Q, 5%Q);
               ("doctor"%string, 7%Q, 7%Q)] first_patient _ eq_refl)
    as (_ & _ & _ & added & Hv & _ & _).
  reflexivity.
Defined.

(** ** Polyclinic: the index of a specialist *)

Section IndexFacts.
Context {A : Type}.

Lemma py_norm_index_range (l : list A) (i : Z) :
  let n := Z.of_nat (List.length l) in
  (py_norm_index l i = None <-> ~ (- n <= i < n)%Z) /\
  (forall k, py_norm_index l i = Some k -> (k < List.length l)%nat).
Proof.
  unfold py_norm_index. simpl.
  destruct (0 <=? i)%Z eqn:E0.
  - apply Z.leb_le in E0.
    destruct (i <? Z.of_nat (List.length l))%Z eqn:E1.
    + apply Z.ltb_lt in E1. split; [split; [discriminate | lia]|].
      intros k Ek. inversion Ek. lia.
    + apply Z.ltb_ge in E1. split; [split; [lia | reflexivity]|]. discriminate.
  - apply Z.leb_gt in E0.
    destruct (- Z.of_nat (List.length l) <=? i)%Z eqn:E1.
    + apply Z.leb_le in E1. split; [split; [discriminate | lia]|].
      intros k Ek. inversion Ek. lia.
    + apply Z.leb_gt in E1. split; [split; [lia | reflexivity]|]. discriminate.
Qed.

Lemma py_getitem_None (l : list A) (i : Z) :
  py_getitem l i = None <-> ~ (- Z.of_nat (List.length l) <= i < Z.of_nat (List.length l))%Z.
Proof.
  destruct (py_norm_index_range l i) as [Hn Hk]. unfold py_getitem.
  destruct (py_norm_index l i) as [k|] eqn:E.
  - specialize (Hk k eq_refl). split.
    + intros Hnone. apply nth_error_None in Hnone. lia.
    + intros Hout. apply Hn in Hout. discriminate.
  - split; [intros _; apply Hn; reflexivity | reflexivity].
Qed.

Lemma py_norm_index_from_end (l : list A) (i : Z) :
  (- Z.of_nat (List.length l) <= i < 0)%Z ->
  py_norm_index l i = py_norm_index l (Z.of_nat (List.length l) + i).
Proof.
  intros Hi. unfold py_norm_index.
  destruct (0 <=? i)%Z eqn:E0; [apply Z.leb_le in E0; lia|].
  destruct (- Z.of_nat (List.length l) <=? i)%Z eqn:E1; [|apply Z.leb_gt in E1; lia].
  destruct (0 <=? Z.of_nat (List.length l) + i)%Z eqn:E2; [|apply Z.leb_gt in E2; lia].
  destruct (Z.of_nat (List.length l) + i <? Z.of_nat (List.length l))%Z eqn:E3;
    [reflexivity | apply Z.ltb_ge in E3; lia].
Qed.

End IndexFacts.

Section DoctorIndex.
Context {T : Type} `{PyNumber T} {Rng : Type} (rnd : RandomOps T Rng).
Local Open Scope py_scope.

Lemma py_setitem_length {A} (l l' : list A) (i : Z) (x : A) :
  py_setitem l i x = Some l' -> List.length l' = List.length l.
Proof.
  unfold py_setitem. destruct (py_norm_index l i); [|discriminate].
  intros E. inversion E. apply list_set_length.
Qed.

Lemma visit_doctor_request_same_place (i j : Z) (self : Polyclinic T Rng) :
  same_place (List.length (doctors self)) i j ->
  List.length (queue_at_doctors self) = List.length (doctors self) ->
  visit_doctor_request rnd (Some i) self
  = reindex i (visit_doctor_request rnd (Some j) self).
Proof.
  intros Hsame Hlen.
  assert (Hget : forall A (l : list A), List.length l = List.length (doctors self) ->
                   py_getitem l i = py_getitem l j)
    by (intros A l Hl; unfold py_getitem; rewrite (Hsame A l Hl); reflexivity).
  assert (Hset : forall A (l : list A) x, List.length l = List.length (doctors self) ->
                   py_setitem l i x = py_setitem l j x)
    by (intros A l x Hl; unfold py_setitem; rewrite (Hsame A l Hl); reflexivity).
  unfold visit_doctor_request, bind, ret, get, modify. simpl.
  rewrite (Hget _ (doctors self) eq_refl).
  destruct (py_getitem (doctors self) j) as [doctor|] eqn:Ed; [|reflexivity].
  destruct (request (env self) doctor) as [[env1 doctor1] req] eqn:Er.
  rewrite (Hset _ (doctors self) doctor1 eq_refl).
  destruct (py_setitem (doctors self) j doctor1) as [l|] eqn:El.
  - pose proof (py_setitem_length _ _ _ El) as Hl.
    destruct (truthy (count doctor1)); [|reflexivity].
    unfold on_raise, bind, get, ret, queue_at_doctors_update. simpl.
    rewrite (Hget _ (queue_at_doctors self) Hlen).
    destruct (py_getitem (queue_at_doctors self) j) as [sv|] eqn:Eq.
    + rewrite (Hset _ (queue_at_doctors self) _ Hlen).
      destruct (py_setitem (queue_at_doctors self) j
                  (__iadd__ (now env1) 1 sv)); simpl.
      * reflexivity.
      * unfold withdraw_doctor. simpl. rewrite (Hget _ l Hl).
        destruct (py_getitem l j); [|reflexivity]. rewrite (Hset _ l _ Hl). reflexivity.
    + simpl. unfold withdraw_doctor. simpl. rewrite (Hget _ l Hl).
      destruct (py_getitem l j); [|reflexivity]. rewrite (Hset _ l _ Hl). reflexivity.
  - destruct (truthy (count doctor1)); [|reflexivity].
    unfold on_raise, bind, get, ret, queue_at_doctors_update. simpl.
    rewrite (Hget _ (queue_at_doctors self) Hlen).
    destruct (py_getitem (queue_at_doctors self) j) as [sv|] eqn:Eq.
    + rewrite (Hset _ (queue_at_doctors self) _ Hlen).
      destruct (py_setitem (queue_at_doctors self) j
                  (__iadd__ (now (env self)) 1 sv)); simpl.
      * reflexivity.
      * unfold withdraw_doctor. simpl. rewrite (Hget _ (doctors self) eq_refl), Ed.
        rewrite (Hset _ (doctors self) _ eq_refl). reflexivity.
    + simpl. unfold withdraw_doctor. simpl. rewrite (Hget _ (doctors self) eq_refl), Ed.
      rewrite (Hset _ (doctors self) _ eq_refl). reflexivity.
Qed.

(** The request [resource.request()] returns is a new event, and the
    resource holds it: among the users if it got a slot, in the wait
    queue otherwise. *)

Lemma request_registered (env env1 : Environment T) (res res1 : Resource)
  (req : Request T) :
  request env res = (env1, res1, req) ->
  request_id req = allocated env /\
  (In (request_id req) (users res1) \/ In (request_id req) (put_queue res1)).
Proof.
  unfold request, _trigger_put, _do_put, succeed, schedule, new_event. simpl.
  destruct (put_queue res) as [|q0 q] eqn:Eq; simpl;
    destruct (Z.of_nat (List.length (users res)) <? capacity res)%Z; simpl;
    intros E; inversion E; subst; clear E; simpl; (split; [reflexivity|]).
  - left. apply in_or_app. right. left. reflexivity.
  - right. left. reflexivity.
  - right. apply in_or_app. right. left. reflexivity.
  - right. right. apply in_or_app. right. left. reflexivity.
Qed.

(** X6. [visit_doctor] with an index outside [-n, n), where [n] is the
    number of specialists, raises IndexError before it requests
    anything: the polyclinic is as it was.  With an index inside, on a
    polyclinic with one statistic per specialist, the request is made:
    the generator reaches [yield request] holding the request that
    [doctor.request()] returned for the specialist under that index,
    and the polyclinic then has, under the same index, the resource as
    that call left it, with the new request among its users or in its
    wait queue. *)

Theorem visit_doctor_index_bounds (i : Z) (self : Polyclinic T Rng) :
  List.length (queue_at_doctors self) = List.length (doctors self) ->
  let n := Z.of_nat (List.length (doctors self)) in
  (~ (- n <= i < n)%Z -> visit_doctor_request rnd (Some i) self = Raise IndexError self) /\
  ((- n <= i < n)%Z ->
   exists doctor env1 doctor1 req fr self1,
     py_getitem (doctors self) i = Some doctor /\
     request (env self) doctor = (env1, doctor1, req) /\
     visit_doctor_request rnd (Some i) self = Ok fr self1 /\
     w_index fr = i /\ w_request fr = req /\
     env self1 = env1 /\
     py_getitem (doctors self1) i = Some doctor1 /\
     request_id req = allocated (env self) /\
     (In (request_id req) (users doctor1) \/ In (request_id req) (put_queue doctor1))).
Proof.
  intros Hlen n. split.
  - intros Hout. apply py_getitem_None in Hout.
    unfold visit_doctor_request, bind, ret, get. simpl. rewrite Hout. reflexivity.
  - intros Hin.
    assert (Hok : exists fr self1, visit_doctor_request rnd (Some i) self = Ok fr self1).
    { destruct (py_getitem (doctors self) i) as [doctor|] eqn:Ed;
        [|apply py_getitem_None in Ed; contradiction].
      destruct (py_getitem (queue_at_doctors self) i) as [sv|] eqn:Eq;
        [|apply py_getitem_None in Eq; rewrite Hlen in Eq; contradiction].
      unfold visit_doctor_request, bind, ret, get, modify. simpl. rewrite Ed.
      destruct (request (env self) doctor) as [[env1 doctor1] req] eqn:Er.
      rewrite (py_setitem_Some _ _ doctor1 Ed).
      destruct (truthy (count doctor1)).
      - unfold on_raise, bind, get, ret, queue_at_doctors_update. simpl.
        rewrite Eq. rewrite (py_setitem_Some _ _ _ Eq). simpl.
        do 2 eexists. reflexivity.
      - do 2 eexists. reflexivity. }
    destruct Hok as (fr & self1 & E).
    destruct (@visit_request_shape _ _ _ rnd (Doctor (Some i)) self self1 fr E)
      as (Hi & doctor & env1 & doctor1 & req & Hd & Er & Hwr & Hd1 & He & _).
    simpl in Hi, Hd, Hd1. rewrite Hi in Hd, Hd1.
    destruct (request_registered _ _ Er) as [Hid Hheld].
    exists doctor, env1, doctor1, req, fr, self1.
    repeat split; trivial.
Qed.

(** X7. A negative index counts from the last specialist: with [n]
    specialists, [visit_doctor(patient, index=i)] for [-n <= i < 0]
    requests the same specialist and counts in the same statistic as
    with [index=n+i]; only the index kept in the generator differs. *)

Theorem visit_doctor_index_from_the_end (i : Z) (self : Polyclinic T Rng) :
  List.length (queue_at_doctors self) = List.length (doctors self) ->
  (- Z.of_nat (List.length (doctors self)) <= i < 0)%Z ->
  visit_doctor_request rnd (Some i) self
  = reindex i (visit_doctor_request rnd
                 (Some (Z.of_nat (List.length (doctors self)) + i)%Z) self).
Proof.
  intros Hlen Hi. apply visit_doctor_request_same_place; [|exact Hlen].
  intros A l Hl. rewrite <- Hl in Hi |- *. apply py_norm_index_from_end. exact Hi.
Qed.

End DoctorIndex.

Lemma visit_doctor_index_bounds_witness :
  visit_doctor_request least_random (Some 10%Z) fresh_polyclinic
  = Raise IndexError fresh_polyclinic /\
  exists fr self1 doctor1,
    visit_doctor_request least_random (Some (-10)%Z) fresh_polyclinic = Ok fr self1 /\
    py_getitem (doctors self1) (-10) = Some doctor1 /\
    (In (request_id (w_request fr)) (users doctor1) \/
     In (request_id (w_request fr)) (put_queue doctor1)).
Proof.
  destruct (@visit_doctor_index_bounds Q _ nat least_random 10%Z fresh_polyclinic eq_refl)
    as [Hout _].
  destruct (@visit_doctor_index_bounds Q _ nat least_random (-10)%Z fresh_polyclinic eq_refl)
    as [_ Hin].
  split.
  - apply Hout. simpl. lia.
  - destruct Hin as (doctor & env1 & doctor1 & req & fr & self1
                     & _ & _ & E & _ & Hr & _ & Hd1 & _ & Hheld); [simpl; lia|].
    exists fr, self1, doctor1. rewrite Hr.
    split; [exact E|]. split; [exact Hd1 | exact Hheld].
Defined.

Lemma visit_doctor_index_from_the_end_witness :
  visit_doctor_request least_random (Some (-1)%Z) one_with_therapist
  = reindex (-1) (visit_doctor_request least_random (Some 9%Z) one_with_therapist).
Proof.
  apply (@visit_doctor_index_from_the_end Q _ nat least_random (-1)%Z one_with_therapist).
  - reflexivity.
  - simpl. lia.
Defined.

(** ** Polyclinic: the times of a visit *)

Section VisitTimes.
Context {T : Type} `{PyNumber T} {Rng : Type} (rnd : RandomOps T Rng).
Local Open Scope py_scope.

Ltac inv_ok :=
  repeat match goal with
  | E : on_raise _ _ _ = Ok _ _ |- _ => apply on_raise_Ok in E
  | E : bind _ _ _ = Ok _ _ |- _ =>
      apply bind_Ok in E; destruct E as (? & ? & ? & E)
  | E : ret _ _ = Ok _ _ |- _ => unfold ret in E; inversion E; subst; clear E
  | E : get _ = Ok _ _ |- _ => unfold get in E; inversion E; subst; clear E
  | E : modify _ _ = Ok _ _ |- _ => unfold modify in E; inversion E; subst; clear E
  | E : sample _ _ = Ok _ _ |- _ =>
      apply sample_Ok in E; destruct E as [? ?]; subst
  | E : env_timeout _ _ = Ok _ _ |- _ =>
      apply env_timeout_Ok in E; destruct E as (? & ? & ? & ?); subst
  | E : therapist_process_time _ _ = Ok _ _ |- _ => unfold therapist_process_time in E
  | E : queue_at_doctors_update _ _ _ = Ok _ _ |- _ =>
      apply queue_at_doctors_update_Ok in E; destruct E as (? & ? & ? & ? & ?); subst
  end.

Lemma visit_therapist_granted_times (fr : Waiting T) (fr' : Serving T)
  (self self' : Polyclinic T Rng) :
  visit_therapist_granted rnd fr self = Ok fr' self' ->
  s_time fr' = now (env self) /\
  at_time (s_timeout fr')
  = now (env self) + of_Z (fst (randint rnd (5 * 60) (15 * 60) (r self))).
Proof.
  unfold visit_therapist_granted. intros E.
  destruct (w_time fr); inv_ok; simpl in *; split; trivial.
Qed.

(** A request made when every slot is in use joins the wait queue and
    is not triggered. *)



(** X10. When every slot of the resource a therapist or specialist
    visit requests is in use, the request is not triggered when it is
    made, and the waiting time the visit records is the time of the
    grant less the time of the request (0 if that is below 1). *)


End VisitTimes.


(** ** Polyclinic: a visit to the therapist *)

Section TherapistVisit.
Context {T : Type} `{PyNumber T} {Rng : Type} (rnd : RandomOps T Rng).
Local Open Scope py_scope.

Lemma visit_therapist_request_Ok (self : Polyclinic T Rng) :
  exists fr s1, visit_therapist_request self = Ok fr s1.
Proof.
  unfold visit_therapist_request.
  destruct (request (env self) (therapists self)) as [[env1 res1] req]. simpl.
  destruct (truthy (count res1)); do 2 eexists; reflexivity.
Qed.

Lemma visit_therapist_granted_Ok (fr : Waiting T) (s : Polyclinic T Rng) :
  randint_in_range rnd ->
  (forall n, (300 <= n <= 900)%Z -> (of_Z n <? of_Z 0) = false) ->
  exists fr' s', visit_therapist_granted rnd fr s = Ok fr' s'.
Proof.
  intros Hrange Hsign.
  unfold visit_therapist_granted, therapist_process_time, on_raise, bind, get,
    ret, modify, sample, env_timeout, timeout.
  destruct (w_time fr); simpl;
    destruct (randint rnd 300 900 (r s)) as [n g] eqn:En; simpl;
    pose proof (Hrange 300%Z 900%Z (r s) ltac:(lia)) as Hn; rewrite En in Hn;
    simpl in Hn; rewrite (Hsign n Hn); simpl; do 2 eexists; reflexivity.
Qed.

Lemma visit_therapist_served_Ok (fr : Serving T) (sp : Polyclinic T Rng * Patient T) :
  exists sp', visit_therapist_served fr sp = Ok tt sp'.
Proof.
  destruct sp as [s p].
  unfold visit_therapist_served, finally, bind, on_polyclinic, on_patient, get,
    add_visit, modify; simpl. eexists. reflexivity.
Qed.

(** X8. [visit_therapist] never raises.  With a [randint] that keeps
    to its range, and numbers among which a whole number from 300 to
    900 is not below 0, each piece of the generator runs to the next
    [yield], or to the end, without an exception, in whatever state the
    scheduler resumes it; so the whole visit raises nothing, whatever
    the other processes do meanwhile. *)

Theorem visit_therapist_never_raises (others : Others) (self : Polyclinic T Rng)
  (p : Patient T) :
  randint_in_range rnd ->
  (forall n, (300 <= n <= 900)%Z -> (of_Z n <? of_Z 0) = false) ->
  (exists fr s1, visit_therapist_request self = Ok fr s1) /\
  (forall fr (s : Polyclinic T Rng),
      exists fr' s', visit_therapist_granted rnd fr s = Ok fr' s') /\
  (forall fr' (sp : Polyclinic T Rng * Patient T),
      exists sp', visit_therapist_served fr' sp = Ok tt sp') /\
  forall e sp, visit_therapist rnd others (self, p) <> Raise e sp.
Proof.
  intros Hrange Hsign.
  split; [apply visit_therapist_request_Ok|].
  split; [intros fr s; apply visit_therapist_granted_Ok; assumption|].
  split; [intros fr' sp; apply visit_therapist_served_Ok|].
  intros e sp.
  destruct (visit_therapist_request_Ok self) as (fr & s1 & E1).
  unfold visit_therapist, visit, bind, on_polyclinic, modify. simpl.
  rewrite E1.
  match goal with
  | |- context [visit_therapist_granted rnd ?f ?s] =>
      destruct (visit_therapist_granted_Ok f s Hrange Hsign) as (fr' & s' & Eg)
  end.
  rewrite Eg.
  unfold visit_therapist_served, finally, bind, on_polyclinic, on_patient, get,
    add_visit, modify; simpl. discriminate.
Qed.

(** X9. The service time a completed [visit_therapist] records is what
    the clock shows: with [t] the time at which the generator is
    resumed after the grant and [n] the whole number of seconds that
    [randint(5 * 60, 15 * 60)] draws then, the timeout ends at [t + n]
    and the record holds [(t + n) - t], or 0 if that is below 1.  It
    holds [n] itself only where [(t + n) - t] is [n]. *)

Theorem visit_therapist_service_time (others : Others)
  (self self' : Polyclinic T Rng) (p p' : Patient T) :
  visit_therapist rnd others (self, p) = Ok tt (self', p') ->
  exists fr self1,
    visit_therapist_request self = Ok fr self1 /\
    let resumed := resume (grant_entry others fr) (while_waiting others self1) in
    let t := now (env resumed) in
    let n := fst (randint rnd 300 900 (r resumed)) in
    let elapsed := (t + of_Z n) - t in
    exists rec,
      visits p' = visits p ++ [rec] /\
      service_time rec = (if elapsed <? of_Z 1 then of_Z 0 else elapsed) /\
      (randint_in_range rnd -> (300 <= n <= 900)%Z).
Proof.
  intros E. unfold visit_therapist in E.
  destruct (@visit_Ok _ _ _ rnd _ _ _ _ _ _ E) as (fr & self1 & fr' & self3 & E1 & E3 & E4).
  simpl in E1, E3.
  destruct (visit_therapist_granted_times _ _ _ E3) as [Htime Hat].
  change (5 * 60)%Z with 300%Z in Hat. change (15 * 60)%Z with 900%Z in Hat.
  assert (Hst : Therapist <> Registry) by discriminate.
  destruct (@visit_served_records _ _ _ Therapist _ _ _ _ _ Hst E4) as [Hrec _].
  exists fr, self1. split; [exact E1|].
  intros resumed t n elapsed.
  eexists. split; [exact Hrec|]. split.
  - cbn [service_time].
    change (now (env (resume (s_timeout fr') (while_served others self3))))
      with (at_time (s_timeout fr')).
    rewrite Htime, Hat. reflexivity.
  - intros Hrange. apply Hrange. lia.
Qed.

End TherapistVisit.

Lemma Qltb_inject_nonneg (n : Z) : (0 <= n)%Z -> Qltb (inject_Z n) (inject_Z 0) = false.
Proof.
  intros Hn. unfold Qltb, Qle_bool, inject_Z. simpl.
  rewrite Z.mul_1_r. apply negb_false_iff. apply Z.leb_le. exact Hn.
Qed.

Lemma Q_seconds_not_below_0 (n : Z) :
  (300 <= n <= 900)%Z -> Qltb (inject_Z n) (inject_Z 0) = false.
Proof. intros Hn. apply Qltb_inject_nonneg. lia. Qed.

(** In exact arithmetic [(t + n) - t] is [n], and the record holds the
    number drawn. *)

Lemma service_time_exact_on_Q (t : Q) (n : Z) :
  (300 <= n <= 900)%Z ->
  let elapsed := (t + inject_Z n - t)%Q in
  ((if Qltb elapsed (inject_Z 1) then inject_Z 0 else elapsed) == inject_Z n)%Q.
Proof.
  intros Hn elapsed.
  assert (Hx : (elapsed == inject_Z n)%Q) by (unfold elapsed; ring).
  assert (Hge : Qltb elapsed (inject_Z 1) = false).
  { unfold Qltb. apply negb_false_iff. apply Qle_bool_iff. rewrite Hx.
    unfold Qle, inject_Z. simpl. lia. }
  rewrite Hge. exact Hx.
Qed.

Lemma least_random_in_range : randint_in_range least_random.
Proof. intros a b s Hab. simpl. lia. Qed.

Lemma visit_therapist_never_raises_witness :
  (exists fr s1, visit_therapist_request one_with_therapist = Ok fr s1) /\
  forall e sp,
    visit_therapist least_random (granted_at 45) (one_with_therapist, second_patient)
    <> Raise e sp.
Proof.
  destruct (@visit_therapist_never_raises Q Q_PyNumber nat least_random (granted_at 45)
              one_with_therapist second_patient least_random_in_range
              Q_seconds_not_below_0)
    as (Hreq & _ & _ & Hnever).
  split; [exact Hreq | exact Hnever].
Defined.

Lemma visit_therapist_service_time_witness :
  exists self' p' rec,
    visit_therapist least_random alone (one_with_therapist, second_patient)
    = Ok tt (self', p') /\
    visits p' = [rec] /\ service_time rec = 300%Q.
Proof.
  destruct (visit_therapist least_random alone
              (one_with_therapist, second_patient)) as [[] [self' p']|e s|] eqn:E;
    [|vm_compute in E; discriminate E|vm_compute in E; discriminate E].
  destruct (@visit_therapist_service_time Q _ nat least_random alone
              one_with_therapist self' second_patient p' E)
    as (fr & self1 & E1 & rec & Hv & Hs & _).
  exists self', p', rec. split; [reflexivity|]. split; [exact Hv|].
  vm_compute in E1. inversion E1; subst fr self1; clear E1.
  rewrite Hs. vm_compute. reflexivity.
Defined.

(** ** Polyclinic: each stage keeps to itself *)

Section Keeps.
Context {T S : Type} `{PyNumber T}.

Lemma keeps_ret {A X} (f : S -> X) (a : A) : keeps f (ret (T:=T) a).
Proof. intros s s' E. inversion E. reflexivity. Qed.

Lemma keeps_get {X} (f : S -> X) : keeps f (get (T:=T)).
Proof. intros s s' E. inversion E. reflexivity. Qed.

Lemma keeps_raise {A X} (f : S -> X) (e : Exception T) : keeps f (raise (A:=A) e).
Proof. intros s s' E. inversion E. reflexivity. Qed.

Lemma keeps_modify {X} (f : S -> X) (g : S -> S) :
  (forall s, f (g s) = f s) -> keeps f (modify (T:=T) g).
Proof. intros Hg s s' E. inversion E. apply Hg. Qed.

Lemma keeps_bind {A B X} (f : S -> X) (c : M T S A) (k : A -> M T S B) :
  keeps f c -> (forall a, keeps f (k a)) -> keeps f (bind c k).
Proof.
  intros Hc Hk s s' E. unfold bind in E.
  destruct (c s) as [a s1|e s1|] eqn:E1.
  - rewrite (Hk a s1 s' E). apply Hc. rewrite E1. reflexivity.
  - apply Hc. rewrite E1. exact E.
  - discriminate.
Qed.

Lemma keeps_on_raise {A X} (f : S -> X) (c : M T S A) (h : S -> S) :
  keeps f c -> (forall s, f (h s) = f s) -> keeps f (on_raise c h).
Proof.
  intros Hc Hh s s' E. unfold on_raise in E.
  destruct (c s) as [a s1|e s1|] eqn:E1.
  - apply Hc. rewrite E1. exact E.
  - inversion E; subst. rewrite Hh. apply Hc. rewrite E1. reflexivity.
  - discriminate.
Qed.

Lemma keeps_finally {A X} (f : S -> X) (c : M T S A) (h : S -> S) :
  keeps f c -> (forall s, f (h s) = f s) -> keeps f (finally c h).
Proof.
  intros Hc Hh s s' E. unfold finally in E.
  destruct (c s) as [a s1|e s1|] eqn:E1.
  - inversion E; subst. rewrite Hh. apply Hc. rewrite E1. reflexivity.
  - inversion E; subst. rewrite Hh. apply Hc. rewrite E1. reflexivity.
  - discriminate.
Qed.

End Keeps.

Section Isolation.
Context {T : Type} `{PyNumber T} {Rng : Type} (rnd : RandomOps T Rng).
Local Open Scope py_scope.

Lemma keeps_on_polyclinic {P A X} (f : Polyclinic T Rng -> X)
  (c : M T (Polyclinic T Rng) A) :
  keeps f c -> keeps (fun sp : Polyclinic T Rng * P => f (fst sp)) (on_polyclinic c).
Proof.
  intros Hc [s p] [s' p'] E. unfold on_polyclinic in E. simpl.
  destruct (c s) as [a s1|e s1|] eqn:E1; simpl in E; inversion E; subst;
    apply Hc; rewrite E1; reflexivity.
Qed.

Lemma keeps_on_patient {A X} (f : Polyclinic T Rng -> X) (c : M T (Patient T) A) :
  keeps (fun sp : Polyclinic T Rng * Patient T => f (fst sp)) (on_patient c).
Proof.
  intros [s p] [s' p'] E. unfold on_patient in E. simpl.
  destruct (c p) as [a p1|e p1|]; simpl in E; inversion E; reflexivity.
Qed.

Lemma keeps_sample {A} (st : Stage) (g : Rng -> A * Rng) :
  keeps (@foreign T Rng st) (sample g).
Proof.
  intros s s' E. unfold sample in E. destruct (g (r s)).
  inversion E. destruct st; reflexivity.
Qed.

Lemma keeps_env_timeout (st : Stage) (delay : T) :
  keeps (@foreign T Rng st) (env_timeout (Rng:=Rng) delay).
Proof.
  intros s s' E. unfold env_timeout in E.
  destruct (timeout delay (env s)); inversion E; destruct st; reflexivity.
Qed.

Lemma keeps_doctor_process_time (st : Stage) :
  keeps (@foreign T Rng st) (doctor_process_time rnd).
Proof.
  intros s s' E. unfold doctor_process_time in E.
  destruct (normalvariate rnd (of_Z (15 * 60)) (of_Z 150) (r s)) as [[d g]|];
    inversion E; destruct st; reflexivity.
Qed.

Lemma keeps_queue_at_doctors_update (i : Z)
  (f : StatisticValue T -> StatisticValue T) :
  keeps (@foreign T Rng (Doctor None)) (queue_at_doctors_update (Rng:=Rng) i f).
Proof.
  intros s s' E. unfold queue_at_doctors_update in E.
  destruct (py_getitem (queue_at_doctors s) i); [|inversion E; reflexivity].
  destruct (py_setitem (queue_at_doctors s) i (f s0)) eqn:El;
    inversion E; [|reflexivity].
  apply py_setitem_length in El. simpl. rewrite El. reflexivity.
Qed.

Lemma foreign_release_doctor (i : Z) (req : Request T) (s : Polyclinic T Rng) :
  foreign (Doctor None) (release_doctor i req s) = foreign (Doctor None) s.
Proof.
  unfold release_doctor.
  destruct (py_getitem (doctors s) i) as [doctor|]; [|reflexivity].
  destruct (release req true (env s) doctor) as [env' res'].
  destruct (py_setitem (doctors s) i res') eqn:E; [|reflexivity].
  apply py_setitem_length in E. simpl. rewrite E. reflexivity.
Qed.

Lemma foreign_withdraw_doctor (i : Z) (req : Request T) (s : Polyclinic T Rng) :
  foreign (Doctor None) (withdraw_doctor i req s) = foreign (Doctor None) s.
Proof.
  unfold withdraw_doctor.
  destruct (py_getitem (doctors s) i) as [doctor|]; [|reflexivity].
  match goal with
  | |- context [release req ?g (env s) doctor] =>
      destruct (release req g (env s) doctor) as [env' res']
  end.
  destruct (py_setitem (doctors s) i res') eqn:E; [|reflexivity].
  apply py_setitem_length in E. simpl. rewrite E. reflexivity.
Qed.

Lemma foreign_release_therapist (req : Request T) (s : Polyclinic T Rng) :
  foreign Therapist (release_therapist req s) = foreign Therapist s.
Proof.
  unfold release_therapist.
  destruct (release req true (env s) (therapists s)). reflexivity.
Qed.

Lemma foreign_release_registry (req : Request T) (s : Polyclinic T Rng) :
  foreign Registry (release_registry req s) = foreign Registry s.
Proof.
  unfold release_registry.
  destruct (release req true (env s) (registry s)). reflexivity.
Qed.

Lemma keeps_visit_request (st : Stage) : keeps (@foreign T Rng st) (visit_request rnd st).
Proof.
  destruct st as [| |index]; simpl.
  - intros s s'. unfold visit_registry_request.
    destruct (request (env s) (registry s)) as [[env1 res1] req]. simpl.
    destruct (truthy (count res1)); simpl; intros E; inversion E; reflexivity.
  - intros s s'. unfold visit_therapist_request.
    destruct (request (env s) (therapists s)) as [[env1 res1] req]. simpl.
    destruct (truthy (count res1)); simpl; intros E; inversion E; reflexivity.
  - unfold visit_doctor_request.
    apply keeps_bind.
    + destruct index; [apply keeps_ret|].
      apply keeps_bind; [apply keeps_get | intros a; apply (keeps_sample (Doctor None))].
    + intros i. apply keeps_bind; [apply keeps_get|]. intros s0.
      destruct (py_getitem (doctors s0) i) as [doctor|]; [|apply keeps_raise].
      destruct (request (env s0) doctor) as [[env1 doctor1] req].
      apply keeps_bind.
      * apply keeps_modify. intros s.
        destruct (py_setitem (doctors s) i doctor1) eqn:E; [|reflexivity].
        apply py_setitem_length in E. simpl. rewrite E. reflexivity.
      * intros _. destruct (truthy (count doctor1)); [|apply keeps_ret].
        apply keeps_on_raise; [|apply foreign_withdraw_doctor].
        apply keeps_bind; [apply keeps_get|]. intros s1.
        apply keeps_bind; [apply keeps_queue_at_doctors_update|].
        intros _. apply keeps_ret.
Qed.

Lemma keeps_visit_granted (st : Stage) (fr : Waiting T) :
  keeps (@foreign T Rng st) (visit_granted rnd st fr).
Proof.
  destruct st as [| |index]; simpl.
  - unfold visit_registry_granted.
    apply keeps_on_raise; [|apply foreign_release_registry].
    apply keeps_bind.
    + destruct (w_time fr); [|apply keeps_ret].
      apply keeps_bind; [apply keeps_get|]. intros s.
      apply keeps_modify. reflexivity.
    + intros _. apply keeps_bind; [apply keeps_get|]. intros s.
      apply keeps_bind.
      * unfold registry_process_time.
        apply keeps_bind; [apply keeps_sample|]. intros u.
        apply keeps_bind; [apply keeps_get | intros s1; apply keeps_ret].
      * intros d. apply keeps_bind; [apply keeps_env_timeout | intros e; apply keeps_ret].
  - unfold visit_therapist_granted.
    apply keeps_on_raise; [|apply foreign_release_therapist].
    apply keeps_bind.
    + destruct (w_time fr); [|apply keeps_ret].
      apply keeps_bind; [apply keeps_get|]. intros s.
      apply keeps_bind; [apply keeps_modify; reflexivity | intros _; apply keeps_ret].
    + intros w. apply keeps_bind; [apply keeps_get|]. intros s.
      apply keeps_bind.
      * unfold therapist_process_time.
        apply keeps_bind; [apply keeps_sample | intros n; apply keeps_ret].
      * intros d. apply keeps_bind; [apply keeps_env_timeout | intros e; apply keeps_ret].
  - unfold visit_doctor_granted.
    apply keeps_on_raise; [|apply foreign_release_doctor].
    apply keeps_bind.
    + destruct (w_time fr); [|apply keeps_ret].
      apply keeps_bind; [apply keeps_get|]. intros s.
      apply keeps_bind; [apply keeps_queue_at_doctors_update | intros _; apply keeps_ret].
    + intros w. apply keeps_bind; [apply keeps_get|]. intros s.
      apply keeps_bind; [apply (keeps_doctor_process_time (Doctor None))|].
      intros d. apply keeps_bind; [apply (keeps_env_timeout (Doctor None))|].
      intros e. apply keeps_ret.
Qed.

Lemma keeps_visit_served (st : Stage) (fr : Serving T) :
  keeps (fun sp : Polyclinic T Rng * Patient T => foreign st (fst sp))
        (visit_served st fr).
Proof.
  destruct st as [| |index]; simpl.
  - apply keeps_on_polyclinic with (f := @foreign T Rng Registry). unfold visit_registry_served.
    apply keeps_modify. apply foreign_release_registry.
  - unfold visit_therapist_served. apply keeps_finally.
    + apply keeps_bind; [apply keeps_on_polyclinic with (f := @foreign T Rng Therapist); apply keeps_get|].
      intros s. apply keeps_on_patient with (f := @foreign T Rng Therapist).
    + intros [s p]. exact (foreign_release_therapist (s_request fr) s).
  - unfold visit_doctor_served. apply keeps_finally.
    + apply keeps_bind;
        [apply keeps_on_polyclinic with (f := @foreign T Rng (Doctor None)); apply keeps_get|].
      intros s. apply keeps_on_patient with (f := @foreign T Rng (Doctor None)).
    + intros [s p]. exact (foreign_release_doctor (s_index fr) (s_request fr) s).
Qed.

(** X12. A visit keeps to its stage: when the other processes leave
    the resources and statistics of the other stages alone, so does the
    visit, whether it returns or raises; of the specialists and their
    statistics it keeps the number. *)

Theorem visit_keeps_to_its_stage (st : Stage) (others : Others)
  (self self' : Polyclinic T Rng) (p p' : Patient T) :
  (forall s, foreign st (while_waiting others s) = foreign st s) ->
  (forall s, foreign st (while_served others s) = foreign st s) ->
  final (visit rnd st others (self, p)) = Some (self', p') ->
  foreign st self' = foreign st self.
Proof.
  intros Hw Hs E.
  assert (Hresume : forall (e : Entry T) (s : Polyclinic T Rng),
             foreign st (resume e s) = foreign st s)
    by (intros e s; destruct st; reflexivity).
  assert (K : keeps (fun sp : Polyclinic T Rng * Patient T => foreign st (fst sp))
                    (visit rnd st others)).
  { unfold visit.
    apply keeps_bind; [apply keeps_on_polyclinic, keeps_visit_request|]. intros fr.
    apply keeps_bind.
    { apply keeps_on_polyclinic. apply keeps_modify. intros s. rewrite Hresume. apply Hw. }
    intros _.
    apply keeps_bind; [apply keeps_on_polyclinic, keeps_visit_granted|]. intros fr'.
    apply keeps_bind.
    { apply keeps_on_polyclinic. apply keeps_modify. intros s. rewrite Hresume. apply Hs. }
    intros _. apply keeps_visit_served. }
  exact (K _ _ E).
Qed.

End Isolation.

(** ** Polyclinic: the slot is given back *)

Section SlotGivenBack.
Context {T : Type} `{PyNumber T} {Rng : Type} (rnd : RandomOps T Rng).
Local Open Scope py_scope.

Lemma list_remove_last (x : nat) (l : list nat) :
  ~ In x l -> list_remove x (l ++ [x]) = l.
Proof.
  induction l as [|y l IH]; simpl; intros Hx.
  - rewrite Nat.eqb_refl. reflexivity.
  - destruct (Nat.eqb x y) eqn:E.
    + apply Nat.eqb_eq in E. subst. exfalso. apply Hx. left. reflexivity.
    + rewrite IH; [reflexivity|]. intros Hin. apply Hx. right. exact Hin.
Qed.

Lemma request_granted_shape (env env1 : Environment T) (res res1 : Resource)
  (req : Request T) :
  free_slot res = true -> put_queue res = [] ->
  request env res = (env1, res1, req) ->
  request_id req = allocated env /\
  res1 = {| capacity := capacity res; users := users res ++ [allocated env];
            put_queue := [] |}.
Proof.
  unfold free_slot, count. intros Hfree Hq.
  unfold request, _trigger_put, _do_put, succeed, schedule, new_event. simpl.
  rewrite Hq. simpl. rewrite Hfree. simpl. rewrite Nat.eqb_refl.
  intros E. inversion E; subst. simpl. split; reflexivity.
Qed.

Lemma released_after_request (env env1 : Environment T) (res res1 : Resource)
  (req : Request T) :
  free_slot res = true -> put_queue res = [] ->
  ~ In (allocated env) (users res) ->
  request env res = (env1, res1, req) ->
  released req res1 = res.
Proof.
  intros Hfree Hq Hfresh Er.
  destruct (request_granted_shape _ _ Hfree Hq Er) as [Hid ->].
  unfold released. simpl. rewrite Hid, (@list_remove_last _ _ Hfresh), <- Hq.
  destruct res; reflexivity.
Qed.

Lemma release_stage_resource (st : Stage) (i : Z) (req : Request T)
  (s : Polyclinic T Rng) (r0 : Resource) :
  stage_resource st i s = Some r0 ->
  stage_resource st i (release_stage st i req s) = Some (released req r0).
Proof.
  destruct st as [| |index]; simpl.
  - intros E. inversion E; subst. unfold release_registry, release. reflexivity.
  - intros E. inversion E; subst. unfold release_therapist, release. reflexivity.
  - intros E. unfold release_doctor. rewrite E. unfold release. simpl.
    rewrite (py_setitem_Some _ _ _ E).
    apply (py_getitem_setitem _ _ _ E (py_setitem_Some _ _ _ E)).
Qed.

Lemma on_raise_cases {S A X} (f : S -> X) (g : X -> X) (c : M T S A) (h : S -> S) (s : S) :
  keeps f c -> (forall s0, f (h s0) = g (f s0)) ->
  match on_raise c h s with
  | Ok _ s' => f s' = f s
  | Raise _ s' => f s' = g (f s)
  | Hang => True
  end.
Proof.
  intros Hc Hh. unfold on_raise. destruct (c s) as [a s1|e s1|] eqn:E; trivial.
  - apply Hc. rewrite E. reflexivity.
  - rewrite Hh. f_equal. apply Hc. rewrite E. reflexivity.
Qed.

Lemma finally_cases {S A X} (f : S -> X) (g : X -> X) (c : M T S A) (h : S -> S) (s s' : S) :
  keeps f c -> (forall s0, f (h s0) = g (f s0)) ->
  final (finally c h s) = Some s' -> f s' = g (f s).
Proof.
  intros Hc Hh. unfold finally. destruct (c s) as [a s1|e s1|] eqn:E; simpl;
    intros E'; inversion E'; subst; rewrite Hh; f_equal; apply Hc; rewrite E; reflexivity.
Qed.

Lemma release_stage_option (st : Stage) (i : Z) (req : Request T) (s : Polyclinic T Rng) :
  stage_resource st i (release_stage st i req s)
  = option_map (released req) (stage_resource st i s).
Proof.
  destruct (stage_resource st i s) as [r0|] eqn:E.
  - apply release_stage_resource. exact E.
  - destruct st as [| |index]; simpl in *; try discriminate.
    unfold release_doctor. rewrite E. exact E.
Qed.

Lemma keeps_resource_sample {A} (st : Stage) (i : Z) (g : Rng -> A * Rng) :
  keeps (@stage_resource T Rng st i) (sample g).
Proof.
  intros s s' E. unfold sample in E. destruct (g (r s)).
  inversion E. destruct st; reflexivity.
Qed.

Lemma keeps_resource_env_timeout (st : Stage) (i : Z) (delay : T) :
  keeps (@stage_resource T Rng st i) (env_timeout (Rng:=Rng) delay).
Proof.
  intros s s' E. unfold env_timeout in E.
  destruct (timeout delay (env s)); inversion E; destruct st; reflexivity.
Qed.

Lemma keeps_resource_doctor_process_time (st : Stage) (i : Z) :
  keeps (@stage_resource T Rng st i) (doctor_process_time rnd).
Proof.
  intros s s' E. unfold doctor_process_time in E.
  destruct (normalvariate rnd (of_Z (15 * 60)) (of_Z 150) (r s)) as [[d g]|];
    inversion E; destruct st; reflexivity.
Qed.

Lemma keeps_resource_queue_at_doctors_update (st : Stage) (i j : Z)
  (f : StatisticValue T -> StatisticValue T) :
  keeps (@stage_resource T Rng st i) (queue_at_doctors_update (Rng:=Rng) j f).
Proof.
  intros s s' E. unfold queue_at_doctors_update in E.
  destruct (py_getitem (queue_at_doctors s) j); [|inversion E; reflexivity].
  destruct (py_setitem (queue_at_doctors s) j (f s0));
    inversion E; destruct st; reflexivity.
Qed.

Lemma visit_granted_resource (st : Stage) (fr : Waiting T) (s : Polyclinic T Rng) :
  match visit_granted rnd st fr s with
  | Ok _ s' => stage_resource st (w_index fr) s' = stage_resource st (w_index fr) s
  | Raise _ s' =>
      stage_resource st (w_index fr) s'
      = option_map (released (w_request fr)) (stage_resource st (w_index fr) s)
  | Hang => True
  end.
Proof.
  destruct st as [| |index]; simpl visit_granted.
  - unfold visit_registry_granted.
    apply on_raise_cases with (f := @stage_resource T Rng Registry (w_index fr))
      (g := option_map (released (w_request fr))).
    + apply keeps_bind.
      * destruct (w_time fr); [|apply keeps_ret].
        apply keeps_bind; [apply keeps_get|]. intros s1.
        apply keeps_modify. reflexivity.
      * intros _. apply keeps_bind; [apply keeps_get|]. intros s1.
        apply keeps_bind.
        -- unfold registry_process_time.
           apply keeps_bind; [apply keeps_resource_sample|]. intros u.
           apply keeps_bind; [apply keeps_get | intros s2; apply keeps_ret].
        -- intros d. apply keeps_bind; [apply keeps_resource_env_timeout|].
           intros e; apply keeps_ret.
    + intros s0. exact (release_stage_option Registry (w_index fr) (w_request fr) s0).
  - unfold visit_therapist_granted.
    apply on_raise_cases with (f := @stage_resource T Rng Therapist (w_index fr))
      (g := option_map (released (w_request fr))).
    + apply keeps_bind.
      * destruct (w_time fr); [|apply keeps_ret].
        apply keeps_bind; [apply keeps_get|]. intros s1.
        apply keeps_bind; [apply keeps_modify; reflexivity | intros _; apply keeps_ret].
      * intros w. apply keeps_bind; [apply keeps_get|]. intros s1.
        apply keeps_bind.
        -- unfold therapist_process_time.
           apply keeps_bind; [apply keeps_resource_sample | intros n; apply keeps_ret].
        -- intros d. apply keeps_bind; [apply keeps_resource_env_timeout|].
           intros e; apply keeps_ret.
    + intros s0. exact (release_stage_option Therapist (w_index fr) (w_request fr) s0).
  - unfold visit_doctor_granted.
    apply on_raise_cases with (f := @stage_resource T Rng (Doctor index) (w_index fr))
      (g := option_map (released (w_request fr))).
    + apply keeps_bind.
      * destruct (w_time fr); [|apply keeps_ret].
        apply keeps_bind; [apply keeps_get|]. intros s1.
        apply keeps_bind; [apply keeps_resource_queue_at_doctors_update|].
        intros _; apply keeps_ret.
      * intros w. apply keeps_bind; [apply keeps_get|]. intros s1.
        apply keeps_bind; [apply keeps_resource_doctor_process_time|].
        intros d. apply keeps_bind; [apply keeps_resource_env_timeout|].
        intros e. apply keeps_ret.
    + intros s0. exact (release_stage_option (Doctor index) (w_index fr) (w_request fr) s0).
Qed.

Lemma visit_served_resource (st : Stage) (fr : Serving T)
  (s s' : Polyclinic T Rng) (p p' : Patient T) :
  final (visit_served st fr (s, p)) = Some (s', p') ->
  stage_resource st (s_index fr) s'
  = option_map (released (s_request fr)) (stage_resource st (s_index fr) s).
Proof.
  destruct st as [| |index]; simpl visit_served.
  - unfold visit_registry_served, on_polyclinic, modify. simpl. intros E.
    inversion E; subst.
    exact (release_stage_option Registry (s_index fr) (s_request fr) s).
  - unfold visit_therapist_served. intros E.
    apply finally_cases with
      (f := fun sp : Polyclinic T Rng * Patient T =>
                stage_resource Therapist (s_index fr) (fst sp))
      (g := option_map (released (s_request fr))) in E; [exact E| |].
    + apply keeps_bind;
        [apply keeps_on_polyclinic with (f := @stage_resource T Rng Therapist (s_index fr));
         apply keeps_get|].
      intros s1.
      apply keeps_on_patient with (f := @stage_resource T Rng Therapist (s_index fr)).
    + intros [s0 p0].
      exact (release_stage_option Therapist (s_index fr) (s_request fr) s0).
  - unfold visit_doctor_served. intros E.
    apply finally_cases with
      (f := fun sp : Polyclinic T Rng * Patient T =>
                stage_resource (Doctor index) (s_index fr) (fst sp))
      (g := option_map (released (s_request fr))) in E; [exact E| |].
    + apply keeps_bind;
        [apply keeps_on_polyclinic
           with (f := @stage_resource T Rng (Doctor index) (s_index fr));
         apply keeps_get|].
      intros s1.
      apply keeps_on_patient
        with (f := @stage_resource T Rng (Doctor index) (s_index fr)).
    + intros [s0 p0].
      exact (release_stage_option (Doctor index) (s_index fr) (s_request fr) s0).
Qed.

Lemma visit_granted_frame (st : Stage) (fr : Waiting T) (fr' : Serving T)
  (s s' : Polyclinic T Rng) :
  visit_granted rnd st fr s = Ok fr' s' ->
  s_request fr' = w_request fr /\ s_index fr' = w_index fr.
Proof.
  destruct st as [| |index]; simpl;
    unfold visit_registry_granted, visit_therapist_granted, visit_doctor_granted;
    intros E; apply on_raise_Ok in E;
    repeat (apply bind_Ok in E; destruct E as (? & ? & ? & E));
    unfold ret in E; inversion E; split; reflexivity.
Qed.

Lemma visit_request_resource (st : Stage) (self : Polyclinic T Rng) (res : Resource) :
  stage_resource st (requested_index rnd st self) self = Some res ->
  free_slot res = true -> put_queue res = [] ->
  ~ In (allocated (env self)) (users res) ->
  match visit_request rnd st self with
  | Ok fr s1 =>
      w_index fr = requested_index rnd st self /\
      exists r1, stage_resource st (w_index fr) s1 = Some r1 /\
                 released (w_request fr) r1 = res
  | Raise _ s1 => stage_resource st (requested_index rnd st self) s1 = Some res
  | Hang => False
  end.
Proof.
  intros Hres Hfree Hq Hfresh.
  destruct st as [| |index]; simpl in *.
  - inversion Hres; subst res; clear Hres. unfold visit_registry_request.
    destruct (request (env self) (registry self)) as [[env1 res1] req] eqn:Er. simpl.
    pose proof (released_after_request _ _ Hfree Hq Hfresh Er) as Hrel.
    destruct (truthy (count res1)); simpl; (split; [reflexivity|]);
      exists res1; split; trivial.
  - inversion Hres; subst res; clear Hres. unfold visit_therapist_request.
    destruct (request (env self) (therapists self)) as [[env1 res1] req] eqn:Er. simpl.
    pose proof (released_after_request _ _ Hfree Hq Hfresh Er) as Hrel.
    destruct (truthy (count res1)); simpl; (split; [reflexivity|]);
      exists res1; split; trivial.
  - set (i := match index with
              | Some i => i
              | None => fst (randint rnd 0 (doctors_number self - 1) (r self))
              end) in *.
    assert (Hfirst : exists s0,
               match index with
               | Some i0 => ret i0
               | None => self0 <- get ;; sample (randint rnd 0 (doctors_number self0 - 1))
               end self = Ok i s0
               /\ doctors s0 = doctors self /\ env s0 = env self).
    { unfold i. destruct index as [i0|].
      - exists self. auto.
      - unfold bind, get, sample.
        destruct (randint rnd 0 (doctors_number self - 1) (r self)) as [n g].
        eexists. split; [reflexivity|]. auto. }
    destruct Hfirst as (s0 & E0 & Hd0 & He0).
    unfold visit_doctor_request. unfold bind at 1. rewrite E0.
    unfold bind at 1. unfold get at 1. rewrite Hd0, Hres, He0.
    destruct (request (env self) res) as [[env1 res1] req] eqn:Er.
    pose proof (released_after_request _ _ Hfree Hq Hfresh Er) as Hrel.
    assert (Hwd : forall s : Polyclinic T Rng,
               withdraw_doctor i req s = release_doctor i req s).
    { destruct (request_immediate (env self) res Hfree Hq)
        as (env1' & res1' & req' & e & Er' & Ht & _).
      rewrite Er in Er'. inversion Er'; subst env1' res1' req'; clear Er'.
      intros s. unfold withdraw_doctor, release_doctor. rewrite Ht. reflexivity. }
    unfold bind at 1. unfold modify at 1.
    rewrite <- Hd0 in Hres.
    rewrite (py_setitem_Some _ _ res1 Hres).
    pose proof (py_getitem_setitem _ _ res1 Hres (py_setitem_Some _ _ res1 Hres)) as Hget.
    set (s1 := set_doctors _ (set_env env1 s0)) in *.
    assert (Hs1 : stage_resource (Doctor index) i s1 = Some res1) by exact Hget.
    destruct (truthy (count res1)).
    + pose proof (@on_raise_cases _ _ _ (@stage_resource T Rng (Doctor index) i)
                    (option_map (released req))
                    (self0 <- get ;;
                     queue_at_doctors_update i (__iadd__ (now (env self0)) 1) ;;;
                     (let time := now (env self0) in
                      ret {| w_request := req; w_index := i; w_time := Some time |}))
                    (withdraw_doctor i req) s1) as Hcases.
      match type of Hcases with
      | _ -> _ -> match ?o with _ => _ end =>
          match goal with |- match ?o' with _ => _ end => change o' with o end;
          destruct o as [fr s2|e s2|] eqn:Eo
      end.
      * assert (Hfr : w_index fr = i /\ w_request fr = req).
        { apply on_raise_Ok in Eo.
          repeat (apply bind_Ok in Eo; destruct Eo as (? & ? & ? & Eo)).
          unfold ret in Eo. inversion Eo. split; reflexivity. }
        destruct Hfr as [Hi Hr]. rewrite Hi, Hr. split; [reflexivity|].
        exists res1. split; [|exact Hrel].
        rewrite <- Hs1. apply Hcases.
        -- apply keeps_bind; [apply keeps_get|]. intros s3.
           apply keeps_bind; [apply keeps_resource_queue_at_doctors_update|].
           intros _. apply keeps_ret.
        -- intros s3. rewrite (Hwd s3).
           exact (release_stage_option (Doctor index) i req s3).
      * rewrite <- Hrel. change (Some (released req res1))
          with (option_map (released req) (Some res1)). rewrite <- Hs1.
        apply Hcases.
        -- apply keeps_bind; [apply keeps_get|]. intros s3.
           apply keeps_bind; [apply keeps_resource_queue_at_doctors_update|].
           intros _. apply keeps_ret.
        -- intros s3. rewrite (Hwd s3).
           exact (release_stage_option (Doctor index) i req s3).
      * exfalso.
        unfold on_raise, bind, get, queue_at_doctors_update, ret in Eo.
        destruct (py_getitem (queue_at_doctors s1) i); [|discriminate].
        destruct (py_setitem (queue_at_doctors s1) i _); discriminate.
    + simpl. split; [reflexivity|]. exists res1. split; [exact Hs1 | exact Hrel].
Qed.

(** X11. A visit gives its slot back.  When the resource it requests
    has a free slot and nobody waiting, and the other processes leave
    the polyclinic alone meanwhile, the resource is at the end of the
    visit exactly as it was before, whether the generator returns or
    raises. *)

Theorem visit_gives_the_slot_back (st : Stage) (others : Others)
  (self self' : Polyclinic T Rng) (p p' : Patient T) (res : Resource) :
  undisturbed others ->
  stage_resource st (requested_index rnd st self) self = Some res ->
  free_slot res = true -> put_queue res = [] ->
  ~ In (allocated (env self)) (users res) ->
  final (visit rnd st others (self, p)) = Some (self', p') ->
  stage_resource st (requested_index rnd st self) self' = Some res.
Proof.
  intros [Hw Hs] Hres Hfree Hq Hfresh E.
  pose proof (visit_request_resource st self Hres Hfree Hq Hfresh) as Hreq.
  assert (Hresume : forall i (e : Entry T) (s : Polyclinic T Rng),
             stage_resource st i (resume e s) = stage_resource st i s)
    by (intros i e s; destruct st; reflexivity).
  unfold visit, bind, on_polyclinic, modify in E. simpl in E.
  destruct (visit_request rnd st self) as [fr s1|e s1|]; [| |contradiction].
  - destruct Hreq as (Hi & r1 & Hr1 & Hrel). rewrite <- Hi.
    rewrite Hw in E.
    pose proof (visit_granted_resource st fr (resume (grant_entry others fr) s1)) as Hg.
    destruct (visit_granted rnd st fr (resume (grant_entry others fr) s1))
      as [fr' s3|e s3|] eqn:E3.
    + destruct (visit_granted_frame _ _ _ E3) as [Hreq' Hidx'].
      rewrite Hs in E.
      apply visit_served_resource in E.
      rewrite Hidx', Hreq', Hresume, Hg, Hresume, Hr1 in E. simpl in E.
      rewrite E, Hrel. reflexivity.
    + simpl in E. inversion E; subst.
      rewrite Hg, Hresume, Hr1. reflexivity.
    + discriminate.
  - simpl in E. inversion E; subst. exact Hreq.
Qed.

End SlotGivenBack.

Lemma visit_gives_the_slot_back_witness :
  exists self' p',
    final (visit least_random (Doctor (Some 4%Z)) alone
                 (one_with_specialist, second_patient)) = Some (self', p') /\
    py_getitem (doctors self') 4 = py_getitem (doctors one_with_specialist) 4.
Proof.
  destruct (final (visit least_random (Doctor (Some 4%Z)) alone
                         (one_with_specialist, second_patient)))
    as [[self' p']|] eqn:E; [|vm_compute in E; discriminate E].
  exists self', p'. split; [reflexivity|].
  assert (Hu : undisturbed alone) by (split; reflexivity).
  exact (@visit_gives_the_slot_back Q _ nat least_random (Doctor (Some 4%Z)) alone
           one_with_specialist self' second_patient p'
           {| capacity := 1; users := []; put_queue := [] |}
           Hu eq_refl eq_refl eq_refl ltac:(simpl; tauto) E).
Defined.

Lemma visit_keeps_to_its_stage_witness :
  exists self' p',
    final (visit least_random Therapist alone (one_with_specialist, second_patient))
    = Some (self', p') /\
    foreign Therapist self' = foreign Therapist one_with_specialist.
Proof.
  destruct (final (visit least_random Therapist alone
                         (one_with_specialist, second_patient)))
    as [[self' p']|] eqn:E; [|vm_compute in E; discriminate E].
  exists self', p'. split; [reflexivity|].
  exact (@visit_keeps_to_its_stage Q _ nat least_random Therapist alone
           one_with_specialist self' second_patient p'
           (fun s => eq_refl) (fun s => eq_refl) E).
Defined.
